(** * key-mapper daemon: a shallow embedding of [keymapper/daemon.py]

    The daemon owns a registry of running injectors keyed by device name,
    an autoload history and the active configuration directory.  Its
    methods are embedded as computations in a state-and-exception monad
    over one [World] record that holds the daemon's attributes together
    with the collaborators it talks to (the device registry of
    [keymapper.getdevices], the global [config], the file system, the
    clock).

    Embedded are [path_to_device_name], [AutoloadHistory] and the methods
    of [Daemon] that decide which injectors run: [refresh_devices],
    [stop_injecting], [get_state], [set_config_dir], [_autoload],
    [start_injecting] and [stop_all]; the second part adds [__init__],
    [hello], the public entry points [autoload] and [autoload_single], and
    [connect] on the side of the client.  [publish] and [run], which only
    hand the daemon to the bus and to the main loop, are left out.

    [time.time()] is read as an exact rational number of seconds; the
    rounding of Python floats is not modelled, and the clock stands still
    while one method runs: it moves between the calls. *)

From Stdlib Require Import Ascii String QArith Lqa.
From stdpp Require Import base option list strings gmap fin_maps.

Local Open Scope string_scope.
Local Open Scope list_scope.

(** ** Values shared with the collaborators *)

(** The lifecycle states an injector reports ([keymapper.injection.injector]).
    [UNKNOWN] is what [Daemon.get_state] answers without an injector. *)
Inductive state := UNKNOWN | STARTING | RUNNING | STOPPED.

#[global] Instance state_eq_dec : EqDecision state.
Proof. solve_decision. Defined.

(** A value stored below the [autoload] key of the configuration: either a
    string (a preset name) or anything else JSON can hold. *)
Inductive value :=
  | VStr (s : string)
  | VOther.

(** The exceptions the daemon's code handles. *)
Inductive exn := FileNotFoundError | OSError.

#[global] Instance exn_eq_dec : EqDecision exn.
Proof. solve_decision. Defined.

Inductive result (A : Type) :=
  | Return (a : A)
  | Raise (e : exn).
Arguments Return {A} a.
Arguments Raise {A} e.

(** Ghost log of the calls the properties below count. *)
Inductive event :=
  | CallRefreshDevices
  | CallStartInjecting (device preset : string)
  | CallRemember (device preset : string)
  | CallInjectorStop (device : string).

(** The file formats are outside of the daemon: their parsers are
    parameters of the development. *)
Class Formats := {
  Mapping : Type;
  (** what [Mapping.load] makes of the text of a preset file *)
  parse_preset : string → Mapping;
  (** what [config.load_config] makes of the text of [config.json]:
      the table below its [autoload] key *)
  parse_config : string → gmap string value;
  (** the text [config.save_config] writes *)
  dump_config : gmap string value → string;
  (** [keymapper.state.xmodmap_to_dict] *)
  xmodmap_to_dict : string → gmap string Z
}.

(** [keymapper.state.XMODMAP_FILENAME] *)
Definition XMODMAP_FILENAME : string := "xmodmap".

(** ** [os.path.join] (posixpath) *)

Fixpoint endswith_sep (s : string) : bool :=
  match s with
  | EmptyString => false
  | String c EmptyString => bool_decide (c = "/"%char)
  | String _ rest => endswith_sep rest
  end.

Definition join_component (path b : string) : string :=
  if String.prefix "/" b then b
  else if bool_decide (path = "") || endswith_sep path then path +:+ b
  else path +:+ "/" +:+ b.

Definition os_path_join (a : string) (p : list string) : string :=
  fold_left join_component p a.

(** [path.startswith('/dev/input/')] *)
Definition is_input_path (path : string) : bool :=
  String.prefix "/dev/input/" path.

(** The logical-name lookup and the raw-path scan over a snapshot of the
    device registry: a dict, in insertion order, from the name of a group
    to its paths. *)
Definition known_name (device : string) (devices : list (string * list string)) : bool :=
  bool_decide (device ∈ devices.*1).

Fixpoint group_of_path (path : string) (devices : list (string * list string))
  : option string :=
  match devices with
  | [] => None
  | (device, paths) :: rest =>
      if bool_decide (path ∈ paths) then Some device
      else group_of_path path rest
  end.

(** Strict comparison of two time stamps. *)
Definition Qltb (x y : Q) : bool := (Qnum x * QDen y <? Qnum y * QDen x)%Z.

Lemma Qltb_lt x y : Qltb x y = true ↔ (x < y)%Q.
Proof. unfold Qltb, Qlt. apply Z.ltb_lt. Qed.

Lemma Qltb_ge x y : Qltb x y = false ↔ (y <= x)%Q.
Proof. unfold Qltb, Qle. apply Z.ltb_ge. Qed.

Section Daemon.
Context `{Formats}.

(** Modelled from the spec: the pipeline handle ([Injector] of
    [keymapper.injection.injector], not part of these sources).  It is
    constructed from a device and a loaded mapping, reports a lifecycle
    state and can be told to stop. *)
Record Injector := {
  inj_device : string;
  inj_mapping : Mapping;
  inj_state : state
}.

(** Modelled from the spec: the configuration store ([config] of
    [keymapper.config], not part of these sources), reduced to the file it
    was loaded from and its autoload assignments. *)
Record Config := {
  cfg_path : string;
  cfg_autoload : gmap string value
}.

(** ** The state the daemon's methods run in *)
Record World := {
  (** attributes of [Daemon] *)
  injectors : gmap string Injector;
  config_dir : option string;
  autoload_history : gmap string (Q * string);
  refreshed_devices_at : Q;
  (** [keymapper.getdevices]: the cached snapshot [get_devices()] returns *)
  devices : list (string * list string);
  (** what a re-enumeration of the hardware would find *)
  hardware : list (string * list string);
  (** the global [config] and [system_mapping] *)
  config : Config;
  system_mapping : gmap string Z;
  (** the files that exist, with their text *)
  filesystem : gmap string string;
  (** the reading of [time.time()] *)
  now : Q;
  (** whether the operating system refuses to start an injector *)
  injector_oserror : bool;
  (** ghost: the calls made so far, oldest first *)
  trace : list event
}.

Definition set_injectors (f : gmap string Injector → gmap string Injector) (w : World) : World :=
  {| injectors := f (injectors w); config_dir := config_dir w;
     autoload_history := autoload_history w;
     refreshed_devices_at := refreshed_devices_at w; devices := devices w;
     hardware := hardware w; config := config w;
     system_mapping := system_mapping w; filesystem := filesystem w;
     now := now w; injector_oserror := injector_oserror w; trace := trace w |}.

Definition set_config_dir_attr (d : option string) (w : World) : World :=
  {| injectors := injectors w; config_dir := d;
     autoload_history := autoload_history w;
     refreshed_devices_at := refreshed_devices_at w; devices := devices w;
     hardware := hardware w; config := config w;
     system_mapping := system_mapping w; filesystem := filesystem w;
     now := now w; injector_oserror := injector_oserror w; trace := trace w |}.

Definition set_autoload_history
    (f : gmap string (Q * string) → gmap string (Q * string)) (w : World) : World :=
  {| injectors := injectors w; config_dir := config_dir w;
     autoload_history := f (autoload_history w);
     refreshed_devices_at := refreshed_devices_at w; devices := devices w;
     hardware := hardware w; config := config w;
     system_mapping := system_mapping w; filesystem := filesystem w;
     now := now w; injector_oserror := injector_oserror w; trace := trace w |}.

Definition set_refreshed_devices_at (t : Q) (w : World) : World :=
  {| injectors := injectors w; config_dir := config_dir w;
     autoload_history := autoload_history w;
     refreshed_devices_at := t; devices := devices w;
     hardware := hardware w; config := config w;
     system_mapping := system_mapping w; filesystem := filesystem w;
     now := now w; injector_oserror := injector_oserror w; trace := trace w |}.

Definition set_devices (ds : list (string * list string)) (w : World) : World :=
  {| injectors := injectors w; config_dir := config_dir w;
     autoload_history := autoload_history w;
     refreshed_devices_at := refreshed_devices_at w; devices := ds;
     hardware := hardware w; config := config w;
     system_mapping := system_mapping w; filesystem := filesystem w;
     now := now w; injector_oserror := injector_oserror w; trace := trace w |}.

Definition set_config (c : Config) (w : World) : World :=
  {| injectors := injectors w; config_dir := config_dir w;
     autoload_history := autoload_history w;
     refreshed_devices_at := refreshed_devices_at w; devices := devices w;
     hardware := hardware w; config := c;
     system_mapping := system_mapping w; filesystem := filesystem w;
     now := now w; injector_oserror := injector_oserror w; trace := trace w |}.

Definition set_system_mapping (m : gmap string Z) (w : World) : World :=
  {| injectors := injectors w; config_dir := config_dir w;
     autoload_history := autoload_history w;
     refreshed_devices_at := refreshed_devices_at w; devices := devices w;
     hardware := hardware w; config := config w;
     system_mapping := m; filesystem := filesystem w;
     now := now w; injector_oserror := injector_oserror w; trace := trace w |}.

Definition set_filesystem (fs : gmap string string) (w : World) : World :=
  {| injectors := injectors w; config_dir := config_dir w;
     autoload_history := autoload_history w;
     refreshed_devices_at := refreshed_devices_at w; devices := devices w;
     hardware := hardware w; config := config w;
     system_mapping := system_mapping w; filesystem := fs;
     now := now w; injector_oserror := injector_oserror w; trace := trace w |}.

Definition log (e : event) (w : World) : World :=
  {| injectors := injectors w; config_dir := config_dir w;
     autoload_history := autoload_history w;
     refreshed_devices_at := refreshed_devices_at w; devices := devices w;
     hardware := hardware w; config := config w;
     system_mapping := system_mapping w; filesystem := filesystem w;
     now := now w; injector_oserror := injector_oserror w;
     trace := trace w ++ [e] |}.

(** ** The monad: state passing with exceptions *)

Definition M (A : Type) : Type := World → result A * World.

#[global] Instance M_ret : MRet M := λ A a w, (Return a, w).

#[global] Instance M_bind : MBind M := λ A B k m w,
  match m w with
  | (Return a, w') => k a w'
  | (Raise e, w') => (Raise e, w')
  end.

Definition raise {A} (e : exn) : M A := λ w, (Raise e, w).

(** [try: body except e: handler] for the one exception class [e] *)
Definition try_except {A} (body : M A) (e : exn) (handler : M A) : M A := λ w,
  match body w with
  | (Return a, w') => (Return a, w')
  | (Raise e', w') => if bool_decide (e' = e) then handler w' else (Raise e', w')
  end.

Definition gets {A} (f : World → A) : M A := λ w, (Return (f w), w).
Definition modify (f : World → World) : M unit := λ w, (Return tt, f w).

(** The state a computation leaves behind, and its outcome. *)
Definition exec {A} (m : M A) (w : World) : World := (m w).2.
Definition outcome {A} (m : M A) (w : World) : result A := (m w).1.

(** [for x in xs: body(x)] *)
Fixpoint for_each {A} (xs : list A) (body : A → M unit) : M unit :=
  match xs with
  | [] => mret tt
  | x :: rest => body x ;; for_each rest body
  end.

(** ** Collaborators *)

(** Modelled from the spec: [get_devices()] of [keymapper.getdevices], the
    snapshot of the device registry (logical name to raw paths). *)
Definition get_devices : M (list (string * list string)) := gets devices.

(** Modelled from the spec: [refresh_devices()] of [keymapper.getdevices],
    the forced refresh of the device registry. *)
Definition getdevices_refresh_devices : M unit :=
  modify (λ w, log CallRefreshDevices (set_devices (hardware w) w)).

Definition time_time : M Q := gets now.

Definition os_path_exists (path : string) : M bool :=
  gets (λ w, bool_decide (is_Some (filesystem w !! path))).

(** [open(path, 'r').read()] *)
Definition read_file (path : string) : M string :=
  fs ← gets filesystem;
  match fs !! path with
  | Some text => mret text
  | None => raise FileNotFoundError
  end.

(** Modelled from the spec: [Mapping.load] of [keymapper.mapping]; a preset
    file that is absent makes the start fail with [FileNotFoundError]. *)
Definition Mapping_load (path : string) : M Mapping :=
  fs ← gets filesystem;
  match fs !! path with
  | Some text => mret (parse_preset text)
  | None => raise FileNotFoundError
  end.

(** Modelled from the spec: [config.load_config], [config.get] below
    [autoload], [config.remove] and [config.save_config] of
    [keymapper.config]. *)
Definition config_load_config (path : string) : M unit :=
  fs ← gets filesystem;
  match fs !! path with
  | Some text =>
      modify (set_config {| cfg_path := path; cfg_autoload := parse_config text |})
  | None => mret tt
  end.

Definition config_get_autoload (device : string) : M (option value) :=
  gets (λ w, cfg_autoload (config w) !! device).

Definition config_remove_autoload (device : string) : M unit :=
  modify (λ w, set_config {| cfg_path := cfg_path (config w);
                             cfg_autoload := delete device (cfg_autoload (config w)) |} w).

Definition config_save_config : M unit :=
  modify (λ w, set_filesystem
    (<[cfg_path (config w) := dump_config (cfg_autoload (config w))]> (filesystem w)) w).

(** Modelled from the spec: [Injector(device, mapping)] followed by
    [injector.start()]; the handle reports [STARTING] once it was told to
    start, and the construction can fail at the level of the operating
    system. *)
Definition Injector_start (device : string) (mapping : Mapping) : M Injector :=
  fails ← gets injector_oserror;
  if fails : bool then raise OSError
  else mret {| inj_device := device; inj_mapping := mapping; inj_state := STARTING |}.

(** Modelled from the spec: [Injector.stop_injecting], after which the
    handle reports [STOPPED]. *)
Definition stopped (injector : Injector) : Injector :=
  {| inj_device := inj_device injector; inj_mapping := inj_mapping injector;
     inj_state := STOPPED |}.

(** [self.injectors[device].stop_injecting()] *)
Definition Injector_stop_injecting (device : string) : M unit :=
  modify (λ w, log (CallInjectorStop device) (set_injectors (alter stopped device) w)).

(** ** [path_to_device_name] *)

Definition path_to_device_name (path : string) : M (option string) :=
  if negb (is_input_path path) then
    (* already the name *)
    mret (Some path)
  else
    devices ← get_devices;
    mret (group_of_path path devices).

(** ** [AutoloadHistory] *)

Definition remember (device preset : string) : M unit :=
  modify (log (CallRemember device preset)) ;;
  t ← time_time;
  modify (set_autoload_history <[device := (t, preset)]>).

Definition forget (device : string) : M unit :=
  history ← gets autoload_history;
  if bool_decide (is_Some (history !! device)) then
    modify (set_autoload_history (delete device))
  else mret tt.

Definition may_autoload (device preset : string) : M bool :=
  history ← gets autoload_history;
  match history !! device with
  | None => mret true
  | Some (timestamp, stored) =>
      if negb (bool_decide (stored = preset)) then mret true
      else
        now ← time_time;
        let threshold : Q := 15%Q in
        if Qltb timestamp (now - threshold)%Q then mret true
        else mret false
  end.

(** ** [Daemon] *)

Definition refresh_devices (device : option string) : M unit :=
  now ← time_time;
  refreshed_at ← gets refreshed_devices_at;
  if Qltb refreshed_at (now - 10)%Q then
    getdevices_refresh_devices ;;
    modify (set_refreshed_devices_at now)
  else
    match device with
    | None => mret tt
    | Some device =>
        if is_input_path device then
          groups ← get_devices;
          if existsb (λ group, bool_decide (device ∈ group.2)) groups then mret tt
          else
            getdevices_refresh_devices ;;
            modify (set_refreshed_devices_at now)
        else
          groups ← get_devices;
          if negb (known_name device groups) then
            getdevices_refresh_devices ;;
            modify (set_refreshed_devices_at now)
          else mret tt
    end.

Definition stop_injecting (device : string) : M unit :=
  injector ← gets (λ w, injectors w !! device);
  match injector with
  | None => mret tt
  | Some _ =>
      Injector_stop_injecting device ;;
      forget device
  end.

Definition get_state (device : string) : M state :=
  injector ← gets (λ w, injectors w !! device);
  match injector with
  | Some injector => mret (inj_state injector)
  | None => mret UNKNOWN
  end.

Definition set_config_dir (dir : string) : M unit :=
  let config_path := os_path_join dir ["config.json"] in
  found ← os_path_exists config_path;
  if negb found then mret tt
  else
    modify (set_config_dir_attr (Some dir)) ;;
    config_load_config config_path.

Definition start_injecting (device preset : string) : M bool :=
  modify (log (CallStartInjecting device preset)) ;;
  refresh_devices (Some device) ;;
  device ← path_to_device_name device;
  dir ← gets config_dir;
  match dir with
  | None => mret false
  | Some dir =>
      groups ← get_devices;
      match device with
      | None => (* [None] is no key of the registry *) mret false
      | Some device =>
          if negb (known_name device groups) then mret false
          else
            let preset_path :=
              os_path_join dir ["presets"; device; preset +:+ ".json"] in
            loaded ← try_except
                       (mapping ← Mapping_load preset_path; mret (Some mapping))
                       FileNotFoundError (mret None);
            match loaded with
            | None => mret false
            | Some mapping =>
                injector ← gets (λ w, injectors w !! device);
                (if bool_decide (is_Some injector) then stop_injecting device
                 else mret tt) ;;
                let xmodmap_path := os_path_join dir [XMODMAP_FILENAME] in
                try_except
                  (text ← read_file xmodmap_path;
                   modify (λ w, set_system_mapping
                                  (xmodmap_to_dict text ∪ system_mapping w) w))
                  FileNotFoundError (mret tt) ;;
                try_except
                  (injector ← Injector_start device mapping;
                   modify (set_injectors <[device := injector]>) ;;
                   mret true)
                  OSError (mret false)
            end
      end
  end.

Definition _autoload (device : string) : M unit :=
  refresh_devices (Some device) ;;
  device ← path_to_device_name device;
  groups ← get_devices;
  match device with
  | None => mret tt
  | Some device =>
      if negb (known_name device groups) then mret tt
      else
        preset ← config_get_autoload device;
        match preset with
        | None => mret tt
        | Some VOther =>
            config_remove_autoload device ;;
            config_save_config
        | Some (VStr preset) =>
            allowed ← may_autoload device preset;
            if negb allowed then mret tt
            else
              start_injecting device preset ;;
              remember device preset
        end
  end.

(** The registry is iterated in the order of [map_to_list]; Python iterates
    in insertion order.  The devices are stopped independently of each
    other. *)
Definition stop_all : M unit :=
  keys ← gets (λ w, (map_to_list (injectors w)).*1);
  for_each keys stop_injecting.

(** ** Running the monad *)

Lemma bind_run {A B} (m : M A) (k : A → M B) w :
  (m ≫= k) w = match m w with
               | (Return a, w') => k a w'
               | (Raise e, w') => (Raise e, w')
               end.
Proof. reflexivity. Qed.

Lemma bind_return {A B} (m : M A) (k : A → M B) w a w' :
  m w = (Return a, w') → (m ≫= k) w = k a w'.
Proof. intros Hm. rewrite bind_run, Hm. reflexivity. Qed.

Lemma bind_gets {A B} (f : World → A) (k : A → M B) w :
  (gets f ≫= k) w = k (f w) w.
Proof. reflexivity. Qed.

Lemma bind_modify {B} (f : World → World) (k : unit → M B) w :
  (modify f ≫= k) w = k tt (f w).
Proof. reflexivity. Qed.

Lemma bind_mret {A B} (a : A) (k : A → M B) w :
  (mret a ≫= k) w = k a w.
Proof. reflexivity. Qed.

Lemma mret_run {A} (a : A) w : (mret a : M A) w = (Return a, w).
Proof. reflexivity. Qed.

Ltac mstep :=
  repeat first [rewrite bind_gets | rewrite bind_modify | rewrite bind_mret].

Lemma known_name_true device groups :
  known_name device groups = true ↔ device ∈ groups.*1.
Proof. unfold known_name. apply bool_decide_eq_true. Qed.

Lemma known_name_false device groups :
  known_name device groups = false ↔ device ∉ groups.*1.
Proof. unfold known_name. apply bool_decide_eq_false. Qed.

(** ** Device identity resolution *)

Lemma path_to_device_name_run path w :
  path_to_device_name path w =
    (Return (if is_input_path path then group_of_path path (devices w)
             else Some path), w).
Proof. unfold path_to_device_name. destruct (is_input_path path); reflexivity. Qed.

(** C9: an identifier that does not start with [/dev/input/] is returned
    unchanged, the state is left alone, and resolving the result of a
    resolution again gives the same name whenever that result is a logical
    name, that is, not itself of the shape of a raw path. *)
Theorem path_to_device_name_idempotent (x : string) (w : World) :
  exec (path_to_device_name x) w = w ∧
  (is_input_path x = false →
     outcome (path_to_device_name x) w = Return (Some x)) ∧
  (∀ name, outcome (path_to_device_name x) w = Return (Some name) →
     is_input_path name = false →
     outcome (path_to_device_name name) w = outcome (path_to_device_name x) w).
Proof.
  unfold exec, outcome. rewrite path_to_device_name_run. cbn.
  split; [reflexivity|]. split.
  - intros ->. reflexivity.
  - intros name Hname Hshape. rewrite Hname.
    rewrite path_to_device_name_run, Hshape. reflexivity.
Qed.

(** ** The debounce policy *)

(** The three reasons for which an autoload is approved. *)
Definition approved (device preset : string) (w : World) : Prop :=
  autoload_history w !! device = None
  ∨ (∃ timestamp stored, autoload_history w !! device = Some (timestamp, stored)
       ∧ stored ≠ preset)
  ∨ (∃ timestamp stored, autoload_history w !! device = Some (timestamp, stored)
       ∧ (timestamp < now w - 15)%Q).

Lemma may_autoload_run device preset w :
  may_autoload device preset w =
    (Return match autoload_history w !! device with
            | None => true
            | Some (timestamp, stored) =>
                if bool_decide (stored = preset)
                then Qltb timestamp (now w - 15)%Q else true
            end, w).
Proof.
  unfold may_autoload. rewrite bind_gets.
  destruct (autoload_history w !! device) as [[timestamp stored]|]; [|reflexivity].
  destruct (bool_decide (stored = preset)); [|reflexivity].
  cbn. unfold time_time. rewrite bind_gets. destruct (Qltb _ _); reflexivity.
Qed.

Lemma may_autoload_approved device preset w :
  outcome (may_autoload device preset) w = Return true ↔ approved device preset w.
Proof.
  unfold outcome, approved. rewrite may_autoload_run. cbn.
  destruct (autoload_history w !! device) as [[timestamp stored]|] eqn:Hentry.
  - case_bool_decide as Hsame.
    + split.
      * intros [= Hlt%Qltb_lt]. right. right. eauto.
      * intros [|[(? & ? & [= <- <-] & Hne)|(? & ? & [= <- <-] & Hlt)]];
          [done|done|]. f_equal. by apply Qltb_lt.
    + split; [|done]. intros _. right. left. eauto.
  - split; [|done]. intros _. by left.
Qed.

Lemma remember_run device preset w :
  remember device preset w =
    (Return tt, set_autoload_history <[device := (now w, preset)]>
                  (log (CallRemember device preset) w)).
Proof. reflexivity. Qed.

(** C2: [may_autoload] changes nothing and answers true exactly when there
    is no history entry for the device, or the stored preset differs, or the
    stored time stamp is strictly older than now minus 15 seconds, and
    false otherwise.  Without an entry it is true for any preset; after
    [remember(device, preset)] it is false for that device and preset as
    long as no more than 15 seconds have elapsed, true once more have, and
    true for any other preset. *)
Theorem may_autoload_spec (device preset : string) (w : World) :
  exec (may_autoload device preset) w = w ∧
  (outcome (may_autoload device preset) w = Return true
     ↔ approved device preset w) ∧
  (outcome (may_autoload device preset) w = Return false
     ↔ ¬ approved device preset w) ∧
  (autoload_history w !! device = None →
     ∀ other, outcome (may_autoload device other) w = Return true) ∧
  (∀ later, autoload_history later
              = autoload_history (exec (remember device preset) w) →
     (outcome (may_autoload device preset) later = Return false
        ↔ (now later - now w <= 15)%Q) ∧
     (outcome (may_autoload device preset) later = Return true
        ↔ (15 < now later - now w)%Q) ∧
     (∀ other, other ≠ preset →
        outcome (may_autoload device other) later = Return true)).
Proof.
  split; [|split; [|split; [|split]]].
  - unfold exec. by rewrite may_autoload_run.
  - apply may_autoload_approved.
  - rewrite <- may_autoload_approved. unfold outcome.
    rewrite may_autoload_run. cbn.
    destruct (match autoload_history w !! device with
              | Some (timestamp, stored) => _ | None => true end);
      split; congruence.
  - intros Hnone other. apply may_autoload_approved. by left.
  - intros later Hsame. unfold exec in Hsame. rewrite remember_run in Hsame.
    cbn in Hsame.
    assert (autoload_history later !! device = Some (now w, preset)) as Hentry.
    { rewrite Hsame. apply lookup_insert_eq. }
    unfold outcome. rewrite !may_autoload_run. cbn. rewrite Hentry.
    rewrite bool_decide_eq_true_2 by done.
    split; [|split].
    + destruct (Qltb (now w) (now later - 15)) eqn:Hcmp.
      * apply Qltb_lt in Hcmp. split; [done|]. intros Hle. exfalso. lra.
      * apply Qltb_ge in Hcmp. split; [|done]. intros _. lra.
    + destruct (Qltb (now w) (now later - 15)) eqn:Hcmp.
      * apply Qltb_lt in Hcmp. split; [|done]. intros _. lra.
      * apply Qltb_ge in Hcmp. split; [done|]. intros Hlt. exfalso. lra.
    + intros other Hother. rewrite may_autoload_run. cbn. rewrite Hentry.
      by rewrite bool_decide_eq_false_2 by done.
Qed.

(** ** The device registry cache *)

(** The state after a forced refresh at the current time. *)
Definition refreshed (w : World) : World :=
  set_refreshed_devices_at (now w)
    (log CallRefreshDevices (set_devices (hardware w) w)).

(** An identifier is found in a snapshot by raw path membership when it has
    the shape of a path, and by its logical name otherwise. *)
Definition located (device : string) (groups : list (string * list string)) : Prop :=
  if is_input_path device
  then ∃ group, group ∈ groups ∧ device ∈ group.2
  else device ∈ groups.*1.

Lemma refresh_devices_run device w :
  refresh_devices device w =
    (Return tt,
     if Qltb (refreshed_devices_at w) (now w - 10)%Q then refreshed w
     else match device with
          | None => w
          | Some device =>
              if is_input_path device then
                if existsb (λ group, bool_decide (device ∈ group.2)) (devices w)
                then w else refreshed w
              else if known_name device (devices w) then w else refreshed w
          end).
Proof.
  unfold refresh_devices, time_time. rewrite !bind_gets.
  destruct (Qltb _ _); [reflexivity|].
  destruct device as [device|]; [|reflexivity].
  destruct (is_input_path device).
  - unfold get_devices. rewrite bind_gets. destruct (existsb _ _); reflexivity.
  - unfold get_devices. rewrite bind_gets. destruct (known_name _ _); reflexivity.
Qed.

Lemma refreshed_changes w : refreshed w ≠ w.
Proof.
  intros Heq. apply (f_equal (λ w, length (trace w))) in Heq. cbn in Heq.
  rewrite length_app in Heq. cbn in Heq. lia.
Qed.

Lemma existsb_located device groups :
  is_input_path device = true →
  existsb (λ group, bool_decide (device ∈ group.2)) groups = true
    ↔ located device groups.
Proof.
  intros Hshape. unfold located. rewrite Hshape, existsb_exists. split.
  - intros (group & Hin%list_elem_of_In & Hmem%bool_decide_eq_true). eauto.
  - intros (group & Hin%list_elem_of_In & Hmem). exists group.
    split; [done|]. by apply bool_decide_eq_true.
Qed.

(** C8: [refresh_devices] raises nothing and either forces a refresh (the
    snapshot is re-enumerated and the time stamp becomes the current time)
    or changes nothing.  It refreshes whenever more than 10 seconds have
    elapsed since the recorded time stamp; within the 10 seconds it
    refreshes exactly when an identifier was given that is not found in the
    snapshot, by path membership for identifiers of the shape of a path and
    by name otherwise. *)
Theorem refresh_devices_spec (device : option string) (w : World) :
  outcome (refresh_devices device) w = Return tt ∧
  (exec (refresh_devices device) w = refreshed w
     ∨ exec (refresh_devices device) w = w) ∧
  devices (refreshed w) = hardware w ∧
  refreshed_devices_at (refreshed w) = now w ∧
  ((10 < now w - refreshed_devices_at w)%Q →
     exec (refresh_devices device) w = refreshed w) ∧
  ((now w - refreshed_devices_at w <= 10)%Q →
     exec (refresh_devices device) w = refreshed w
       ↔ ∃ name, device = Some name ∧ ¬ located name (devices w)).
Proof.
  unfold outcome, exec. rewrite refresh_devices_run. cbn.
  split; [reflexivity|].
  split.
  { destruct (Qltb _ _); [by left|]. destruct device as [name|]; [|by right].
    destruct (is_input_path name); [destruct (existsb _ _)|destruct (known_name _ _)];
      auto. }
  split; [reflexivity|]. split; [reflexivity|]. split.
  - intros Hold. rewrite (proj2 (Qltb_lt _ _)); [reflexivity|lra].
  - intros Hrecent. rewrite (proj2 (Qltb_ge _ _)) by lra.
    destruct device as [name|].
    + destruct (is_input_path name) eqn:Hshape.
      * destruct (existsb _ _) eqn:Hscan.
        -- apply existsb_located in Hscan; [|done]. split.
           ++ intros Heq. symmetry in Heq. by apply refreshed_changes in Heq.
           ++ intros (? & [= <-] & Hnot). done.
        -- split; [|done]. intros _. exists name. split; [done|].
           intros Hloc%existsb_located; [congruence|done].
      * destruct (known_name name (devices w)) eqn:Hknown.
        -- apply known_name_true in Hknown. split.
           ++ intros Heq. symmetry in Heq. by apply refreshed_changes in Heq.
           ++ intros (? & [= <-] & Hnot). exfalso. apply Hnot.
              unfold located. by rewrite Hshape.
        -- apply known_name_false in Hknown. split; [|done]. intros _.
           exists name. split; [done|]. unfold located. by rewrite Hshape.
    + split.
      * intros Heq. symmetry in Heq. by apply refreshed_changes in Heq.
      * intros (? & [=] & _).
Qed.

(** ** Stopping *)

Lemma forget_run device w :
  forget device w = (Return tt, set_autoload_history (delete device) w).
Proof.
  unfold forget. rewrite bind_gets. case_bool_decide as Hentry; [reflexivity|].
  cbn. f_equal. destruct w; unfold set_autoload_history; cbn in *. f_equal.
  symmetry. apply delete_id. by apply eq_None_not_Some.
Qed.

(** The state [stop_injecting] leaves behind when an injector is registered. *)
Definition stopped_at (device : string) (w : World) : World :=
  set_autoload_history (delete device)
    (log (CallInjectorStop device) (set_injectors (alter stopped device) w)).

Lemma stop_injecting_run device w :
  stop_injecting device w =
    (Return tt, match injectors w !! device with
                | Some _ => stopped_at device w
                | None => w
                end).
Proof.
  unfold stop_injecting. rewrite bind_gets.
  destruct (injectors w !! device); [|reflexivity].
  unfold Injector_stop_injecting. rewrite bind_modify, forget_run. reflexivity.
Qed.

(** C7: without a registered injector [stop_injecting] raises nothing and
    leaves the whole state as it is; with one, it stops that injector and
    removes the history entry of the device. *)
Theorem stop_injecting_spec (device : string) (w : World) :
  (injectors w !! device = None →
     stop_injecting device w = (Return tt, w)) ∧
  (∀ injector, injectors w !! device = Some injector →
     outcome (stop_injecting device) w = Return tt ∧
     trace (exec (stop_injecting device) w)
       = trace w ++ [CallInjectorStop device] ∧
     injectors (exec (stop_injecting device) w) !! device
       = Some (stopped injector) ∧
     autoload_history (exec (stop_injecting device) w)
       = delete device (autoload_history w) ∧
     autoload_history (exec (stop_injecting device) w) !! device = None).
Proof.
  unfold outcome, exec. rewrite stop_injecting_run. split.
  - intros ->. reflexivity.
  - intros injector Hreg. rewrite Hreg. cbn.
    split; [reflexivity|]. split; [reflexivity|]. split.
    + rewrite lookup_alter_eq, Hreg. reflexivity.
    + split; [reflexivity|]. apply lookup_delete_eq.
Qed.

(** ** The configuration hand-off *)

(** C6: when [config.json] is missing below the directory, [set_config_dir]
    raises nothing and changes nothing (the active directory and the loaded
    configuration stay); when it exists, the active directory is replaced
    and the configuration is loaded from that file. *)
Theorem set_config_dir_spec (dir : string) (w : World) :
  (filesystem w !! os_path_join dir ["config.json"] = None →
     set_config_dir dir w = (Return tt, w)) ∧
  (∀ text, filesystem w !! os_path_join dir ["config.json"] = Some text →
     outcome (set_config_dir dir) w = Return tt ∧
     config_dir (exec (set_config_dir dir) w) = Some dir ∧
     config (exec (set_config_dir dir) w)
       = {| cfg_path := os_path_join dir ["config.json"];
            cfg_autoload := parse_config text |} ∧
     injectors (exec (set_config_dir dir) w) = injectors w ∧
     autoload_history (exec (set_config_dir dir) w) = autoload_history w).
Proof.
  unfold outcome, exec, set_config_dir, os_path_exists. cbv zeta.
  generalize (os_path_join dir ["config.json"]). intros manifest.
  rewrite bind_gets. split.
  - intros ->. reflexivity.
  - intros text Hfile. rewrite Hfile.
    rewrite bool_decide_eq_true_2 by eauto. cbn [negb].
    unfold config_load_config. mstep. cbn [filesystem set_config_dir_attr].
    rewrite Hfile. done.
Qed.

(** ** Starting *)

Lemma try_except_run {A} (body handler : M A) e w :
  try_except body e handler w =
    match body w with
    | (Return a, w') => (Return a, w')
    | (Raise e', w') => if bool_decide (e' = e) then handler w' else (Raise e', w')
    end.
Proof. reflexivity. Qed.

(** The state in which [start_injecting] resolves its device: the call is
    logged and the registry was refreshed on demand. *)
Definition entered (device preset : string) (w : World) : World :=
  exec (refresh_devices (Some device)) (log (CallStartInjecting device preset) w).

(** The value of [path_to_device_name] in a state. *)
Definition resolved (device : string) (w : World) : option string :=
  if is_input_path device then group_of_path device (devices w) else Some device.

(** The effect of reading the xmodmap file of the configuration directory. *)
Definition load_xmodmap (dir : string) (w : World) : World :=
  match filesystem w !! os_path_join dir [XMODMAP_FILENAME] with
  | Some text => set_system_mapping (xmodmap_to_dict text ∪ system_mapping w) w
  | None => w
  end.

Lemma start_injecting_run device preset w :
  start_injecting device preset w =
    let w1 := entered device preset w in
    match config_dir w1, resolved device w1 with
    | Some dir, Some name =>
        if known_name name (devices w1) then
          match filesystem w1
                  !! os_path_join dir ["presets"; name; preset +:+ ".json"] with
          | Some text =>
              let w2 := load_xmodmap dir (exec (stop_injecting name) w1) in
              if injector_oserror w2 then (Return false, w2)
              else (Return true,
                    set_injectors
                      <[name := {| inj_device := name;
                                   inj_mapping := parse_preset text;
                                   inj_state := STARTING |}]> w2)
          | None => (Return false, w1)
          end
        else (Return false, w1)
    | _, _ => (Return false, w1)
    end.
Proof.
  unfold start_injecting. rewrite bind_modify.
  rewrite (bind_return _ _ _ tt (entered device preset w))
    by (unfold entered, exec; rewrite refresh_devices_run; reflexivity).
  cbv zeta. generalize (entered device preset w). intros w1.
  rewrite (bind_return _ _ _ _ _ (path_to_device_name_run _ _)).
  fold (resolved device w1). rewrite bind_gets.
  destruct (config_dir w1) as [dir|]; [|reflexivity].
  unfold get_devices. rewrite bind_gets.
  destruct (resolved device w1) as [name|]; [|reflexivity].
  destruct (known_name name (devices w1)); cbn [negb]; [|reflexivity].
  generalize (os_path_join dir ["presets"; name; preset +:+ ".json"]).
  intros preset_path.
  rewrite bind_run, try_except_run, bind_run. unfold Mapping_load.
  rewrite bind_gets.
  destruct (filesystem w1 !! preset_path) as [text|]; [|reflexivity].
  rewrite mret_run. mstep. rewrite mret_run. mstep.
  assert ((if bool_decide (is_Some (injectors w1 !! name))
           then stop_injecting name else mret tt) w1
          = (Return tt, exec (stop_injecting name) w1)) as Hstop.
  { unfold exec. rewrite stop_injecting_run. case_bool_decide as Hreg.
    - by rewrite stop_injecting_run.
    - apply eq_None_not_Some in Hreg. by rewrite Hreg. }
  rewrite (bind_return _ _ _ _ _ Hstop).
  generalize (exec (stop_injecting name) w1). intros w2.
  assert (try_except
            (read_file (os_path_join dir [XMODMAP_FILENAME]) ≫= λ text0,
               modify (λ w, set_system_mapping
                              (xmodmap_to_dict text0 ∪ system_mapping w) w))
            FileNotFoundError (mret tt) w2
          = (Return tt, load_xmodmap dir w2)) as Hxmodmap.
  { rewrite try_except_run, bind_run. unfold read_file, load_xmodmap.
    rewrite bind_gets.
    destruct (filesystem w2 !! os_path_join dir [XMODMAP_FILENAME]);
      reflexivity. }
  rewrite (bind_return _ _ _ _ _ Hxmodmap).
  generalize (load_xmodmap dir w2). intros w3.
  rewrite try_except_run, bind_run. unfold Injector_start. rewrite bind_gets.
  destruct (injector_oserror w3); reflexivity.
Qed.

Lemma refresh_devices_cases device w :
  exec (refresh_devices device) w = w
  ∨ exec (refresh_devices device) w = refreshed w.
Proof.
  unfold exec. rewrite refresh_devices_run. cbn.
  destruct (Qltb _ _); [by right|]. destruct device as [name|]; [|by left].
  destruct (is_input_path name); [destruct (existsb _ _)|destruct (known_name _ _)];
    auto.
Qed.

Lemma entered_cases device preset w :
  entered device preset w = log (CallStartInjecting device preset) w
  ∨ entered device preset w = refreshed (log (CallStartInjecting device preset) w).
Proof. apply refresh_devices_cases. Qed.

(** What entering [start_injecting] leaves alone. *)
Lemma entered_frame device preset w :
  injectors (entered device preset w) = injectors w
  ∧ config_dir (entered device preset w) = config_dir w
  ∧ autoload_history (entered device preset w) = autoload_history w
  ∧ filesystem (entered device preset w) = filesystem w
  ∧ now (entered device preset w) = now w
  ∧ (trace (entered device preset w)
       = trace w ++ [CallStartInjecting device preset]
     ∨ trace (entered device preset w)
       = trace w ++ [CallStartInjecting device preset; CallRefreshDevices]).
Proof.
  destruct (entered_cases device preset w) as [-> | ->]; cbn.
  - repeat split; auto.
  - repeat split; auto. right. by rewrite <- app_assoc.
Qed.

(** C5: without a configuration directory [start_injecting] returns false
    for every device and preset, raises nothing, and leaves the registry of
    injectors as it was. *)
Theorem start_injecting_without_config_dir (device preset : string) (w : World) :
  config_dir w = None →
  outcome (start_injecting device preset) w = Return false ∧
  injectors (exec (start_injecting device preset) w) = injectors w ∧
  config_dir (exec (start_injecting device preset) w) = None.
Proof.
  intros Hnone. unfold outcome, exec. rewrite start_injecting_run. cbv zeta.
  destruct (entered_frame device preset w) as (Hinj & Hdir & _).
  rewrite Hdir, Hnone. cbn. rewrite Hinj, Hdir. done.
Qed.

(** C4: when the configuration directory is set, an injector is registered
    for the device the request resolves to, and the file of the requested
    preset does not exist below the directory, [start_injecting] returns
    false, the registry is unchanged (the registered injector is the same,
    in the same state) and no injector was told to stop. *)
Theorem start_injecting_missing_preset
    (device preset dir name : string) (injector : Injector) (w : World) :
  config_dir w = Some dir →
  resolved device (entered device preset w) = Some name →
  injectors w !! name = Some injector →
  filesystem w !! os_path_join dir ["presets"; name; preset +:+ ".json"] = None →
  outcome (start_injecting device preset) w = Return false ∧
  injectors (exec (start_injecting device preset) w) = injectors w ∧
  injectors (exec (start_injecting device preset) w) !! name = Some injector ∧
  (∀ stopped_device,
     CallInjectorStop stopped_device ∈ trace (exec (start_injecting device preset) w) →
     CallInjectorStop stopped_device ∈ trace w).
Proof.
  intros Hdir Hname Hreg Hfile. unfold outcome, exec.
  rewrite start_injecting_run. cbv zeta.
  destruct (entered_frame device preset w)
    as (Hinj & Hdir' & _ & Hfs & _ & Htrace).
  rewrite Hdir', Hdir, Hname, Hfs, Hfile.
  assert ((if known_name name (devices (entered device preset w))
           then (Return false, entered device preset w)
           else (Return false, entered device preset w))
          = (Return false, entered device preset w)) as ->
    by (by destruct (known_name _ _)).
  cbn. rewrite Hinj. split; [done|]. split; [done|]. split; [done|].
  intros stopped_device.
  destruct Htrace as [-> | ->]; rewrite elem_of_app;
    intros [Hold|Hnew]; auto; exfalso.
  - apply list_elem_of_singleton in Hnew. discriminate.
  - apply elem_of_cons in Hnew as [Hnew|Hnew]; [discriminate|].
    apply list_elem_of_singleton in Hnew. discriminate.
Qed.

(** ** Stopping everything *)

(** Stopping the devices of a list one after the other. *)
Definition stop_each (keys : list string) (w : World) : World :=
  fold_left (λ w device, exec (stop_injecting device) w) keys w.

Lemma for_each_stop_injecting_run keys w :
  for_each keys stop_injecting w = (Return tt, stop_each keys w).
Proof.
  revert w. induction keys as [|device keys IH]; intros w; [reflexivity|].
  cbn [for_each]. rewrite bind_run, stop_injecting_run, IH. cbn.
  unfold exec. rewrite stop_injecting_run. reflexivity.
Qed.

Lemma stop_all_run w :
  stop_all w = (Return tt, stop_each (map_to_list (injectors w)).*1 w).
Proof. unfold stop_all. rewrite bind_gets. apply for_each_stop_injecting_run. Qed.

Lemma stop_injecting_injectors device w :
  injectors (exec (stop_injecting device) w) = alter stopped device (injectors w).
Proof.
  unfold exec. rewrite stop_injecting_run. cbn.
  destruct (injectors w !! device) eqn:Hreg; [reflexivity|].
  apply map_eq. intros other. rewrite lookup_alter.
  case_decide as Heq; [|reflexivity]. subst. by rewrite Hreg.
Qed.

Lemma stop_injecting_history device w :
  autoload_history (exec (stop_injecting device) w)
    = if bool_decide (is_Some (injectors w !! device))
      then delete device (autoload_history w) else autoload_history w.
Proof.
  unfold exec. rewrite stop_injecting_run. cbn.
  destruct (injectors w !! device) eqn:Hreg.
  - by rewrite bool_decide_eq_true_2 by eauto.
  - rewrite bool_decide_eq_false_2; [done|]. by intros [? [=]].
Qed.

Lemma stop_each_injectors keys w device :
  injectors (stop_each keys w) !! device
    = if bool_decide (device ∈ keys) then stopped <$> injectors w !! device
      else injectors w !! device.
Proof.
  revert w. induction keys as [|key keys IH]; intros w; [reflexivity|].
  cbn [stop_each fold_left]. fold (stop_each keys (exec (stop_injecting key) w)).
  rewrite IH, stop_injecting_injectors, lookup_alter.
  destruct (decide (key = device)) as [->|Hne].
  - rewrite (bool_decide_eq_true_2 (device ∈ device :: keys)) by apply list_elem_of_here.
    case_bool_decide; [|done].
    by destruct (injectors w !! device).
  - case_bool_decide as Hrest.
    + rewrite bool_decide_eq_true_2; [done|]. by apply list_elem_of_further.
    + rewrite bool_decide_eq_false_2; [done|].
      intros [?|?]%elem_of_cons; congruence.
Qed.

Lemma stop_each_history_none keys w device :
  autoload_history w !! device = None →
  autoload_history (stop_each keys w) !! device = None.
Proof.
  revert w. induction keys as [|key keys IH]; intros w Hnone; [done|].
  cbn [stop_each fold_left]. apply IH. rewrite stop_injecting_history.
  case_bool_decide; [|done]. rewrite lookup_delete. by case_decide.
Qed.

Lemma stop_each_history keys w device :
  device ∈ keys → is_Some (injectors w !! device) →
  autoload_history (stop_each keys w) !! device = None.
Proof.
  revert w. induction keys as [|key keys IH]; intros w Hin Hreg.
  - by apply elem_of_nil in Hin.
  - cbn [stop_each fold_left].
    fold (stop_each keys (exec (stop_injecting key) w)).
    destruct (decide (device = key)) as [->|Hne].
    + apply stop_each_history_none. rewrite stop_injecting_history.
      rewrite bool_decide_eq_true_2 by done. apply lookup_delete_eq.
    + apply IH.
      * apply elem_of_cons in Hin as [?|?]; [done|done].
      * rewrite stop_injecting_injectors, lookup_alter_ne by done. done.
Qed.

Lemma registered_key device w :
  is_Some (injectors w !! device) ↔ device ∈ (map_to_list (injectors w)).*1.
Proof.
  rewrite list_elem_of_fmap. split.
  - intros [injector Hreg]. exists (device, injector). split; [done|].
    by apply elem_of_map_to_list.
  - intros ([key injector] & -> & Hin%elem_of_map_to_list). eauto.
Qed.

(** C10: after [stop_all] the history has no entry for any device that had
    a registered injector, so the next [may_autoload] for such a device is
    true for every preset and at every time. *)
Theorem stop_all_forgets (device : string) (w : World) :
  is_Some (injectors w !! device) →
  outcome stop_all w = Return tt ∧
  autoload_history (exec stop_all w) !! device = None ∧
  (∀ later preset,
     autoload_history later = autoload_history (exec stop_all w) →
     outcome (may_autoload device preset) later = Return true).
Proof.
  intros Hreg. unfold outcome, exec. rewrite stop_all_run. cbn.
  assert (autoload_history (stop_each (map_to_list (injectors w)).*1 w) !! device
          = None) as Hgone.
  { apply stop_each_history; [|done]. by apply registered_key. }
  split; [done|]. split; [done|].
  intros later preset Hsame. apply may_autoload_approved. left.
  by rewrite Hsame.
Qed.

(** ** The registry after a stop *)

(** C1 (amended): a stopped injector stays in the registry.  After
    [stop_injecting] on a device with a registered injector the entry is
    still there, now stopped, and [get_state] reports [STOPPED]; after
    [stop_all] every entry is still there, stopped; a start that succeeds
    puts a new injector, which is starting, in the place of whatever was
    registered for the device. *)
Theorem stopped_injectors_stay_registered (w : World) :
  (∀ device injector, injectors w !! device = Some injector →
     injectors (exec (stop_injecting device) w) !! device
       = Some (stopped injector) ∧
     outcome (get_state device) (exec (stop_injecting device) w)
       = Return STOPPED) ∧
  (∀ device, injectors (exec stop_all w) !! device
               = stopped <$> injectors w !! device) ∧
  (∀ device preset,
     outcome (start_injecting device preset) w = Return true →
     ∃ name injector,
       resolved device (entered device preset w) = Some name ∧
       injectors (exec (start_injecting device preset) w) !! name
         = Some injector ∧
       inj_state injector = STARTING).
Proof.
  split; [|split].
  - intros device injector Hreg.
    assert (injectors (exec (stop_injecting device) w) !! device
            = Some (stopped injector)) as Hstopped
      by (by rewrite stop_injecting_injectors, lookup_alter_eq, Hreg).
    split; [done|]. unfold outcome, get_state. rewrite bind_gets, Hstopped.
    reflexivity.
  - intros device. unfold exec. rewrite stop_all_run. cbn.
    rewrite stop_each_injectors. case_bool_decide as Hkey; [done|].
    destruct (injectors w !! device) eqn:Hreg; [|done].
    exfalso. apply Hkey, registered_key. eauto.
  - intros device preset. unfold outcome, exec.
    rewrite start_injecting_run. cbv zeta.
    destruct (config_dir _); [|by intros [=]].
    destruct (resolved device _) as [name|]; [|by intros [=]].
    destruct (known_name _ _); [|by intros [=]].
    destruct (filesystem _ !! _); [|by intros [=]].
    destruct (injector_oserror _); [by intros [=]|].
    intros _. eexists name, _. split; [done|]. cbn.
    split; [apply lookup_insert_eq|done].
Qed.

(** ** Autoload *)

(** The number of invocations of [start_injecting] in a log. *)
Fixpoint start_calls (log : list event) : nat :=
  match log with
  | [] => 0
  | CallStartInjecting _ _ :: rest => S (start_calls rest)
  | _ :: rest => start_calls rest
  end.

Lemma start_calls_app log1 log2 :
  start_calls (log1 ++ log2) = start_calls log1 + start_calls log2.
Proof.
  induction log1 as [|[] log1 IH]; cbn; rewrite ?IH; reflexivity.
Qed.

Lemma refresh_devices_frame device w :
  autoload_history (exec (refresh_devices device) w) = autoload_history w
  ∧ config (exec (refresh_devices device) w) = config w
  ∧ now (exec (refresh_devices device) w) = now w
  ∧ ∃ calls, trace (exec (refresh_devices device) w) = trace w ++ calls
             ∧ start_calls calls = 0.
Proof.
  destruct (refresh_devices_cases device w) as [-> | ->]; cbn.
  - repeat split. exists []. by rewrite app_nil_r.
  - repeat split. by exists [CallRefreshDevices].
Qed.

Lemma stop_injecting_frame device w :
  now (exec (stop_injecting device) w) = now w
  ∧ ∃ calls, trace (exec (stop_injecting device) w) = trace w ++ calls
             ∧ start_calls calls = 0.
Proof.
  unfold exec. rewrite stop_injecting_run. cbn.
  destruct (injectors w !! device); cbn.
  - split; [done|]. by exists [CallInjectorStop device].
  - split; [done|]. exists []. by rewrite app_nil_r.
Qed.

Lemma load_xmodmap_frame dir w :
  now (load_xmodmap dir w) = now w ∧ trace (load_xmodmap dir w) = trace w.
Proof. unfold load_xmodmap. by destruct (filesystem w !! _). Qed.

(** [start_injecting] always returns, logs its own invocation and no
    further one, and leaves the clock alone. *)
Lemma start_injecting_frame device preset w :
  (∃ success, outcome (start_injecting device preset) w = Return success)
  ∧ now (exec (start_injecting device preset) w) = now w
  ∧ ∃ calls, trace (exec (start_injecting device preset) w)
               = trace w ++ CallStartInjecting device preset :: calls
             ∧ start_calls calls = 0.
Proof.
  unfold outcome, exec. rewrite start_injecting_run. cbv zeta.
  destruct (entered_frame device preset w) as (_ & _ & _ & _ & Hnow & Htrace).
  assert (∃ calls, trace (entered device preset w)
                     = trace w ++ CallStartInjecting device preset :: calls
                   ∧ start_calls calls = 0) as Hentered.
  { destruct Htrace as [-> | ->]; [by exists []|by exists [CallRefreshDevices]]. }
  clear Htrace. revert Hnow Hentered.
  generalize (entered device preset w). intros w1 Hnow Hentered.
  assert ((∃ success, (Return false, w1).1 = Return success)
          ∧ now (Return false, w1).2 = now w
          ∧ ∃ calls, trace (@Return bool false, w1).2
                       = trace w ++ CallStartInjecting device preset :: calls
                     ∧ start_calls calls = 0) as Hfail
    by (cbn; eauto).
  destruct (config_dir w1) as [dir|]; [|by destruct (resolved device w1)].
  destruct (resolved device w1) as [name|]; [|done].
  destruct (known_name name (devices w1)); [|done].
  destruct (filesystem w1 !! _) as [text|]; [|done].
  clear Hfail.
  destruct (load_xmodmap_frame dir (exec (stop_injecting name) w1))
    as (Hnow2 & Htrace2).
  destruct (stop_injecting_frame name w1) as (Hnow1 & stops & Htrace1 & Hstops).
  destruct Hentered as (calls & Hcalls & Hquiet).
  assert (trace (load_xmodmap dir (exec (stop_injecting name) w1))
          = trace w ++ CallStartInjecting device preset :: (calls ++ stops))
    as Htrace.
  { rewrite Htrace2, Htrace1, Hcalls, <- app_assoc. reflexivity. }
  assert (start_calls (calls ++ stops) = 0) as Hnone
    by (rewrite start_calls_app; lia).
  destruct (injector_oserror _); cbn.
  - split; [eauto|]. split; [congruence|]. eauto.
  - split; [eauto|]. split; [congruence|]. eauto.
Qed.

Lemma autoload_run device w :
  _autoload device w =
    let w1 := exec (refresh_devices (Some device)) w in
    match resolved device w1 with
    | Some name =>
        if known_name name (devices w1) then
          match cfg_autoload (config w1) !! name with
          | Some (VStr preset) =>
              match outcome (may_autoload name preset) w1 with
              | Return true =>
                  (Return tt, exec (remember name preset)
                                (exec (start_injecting name preset) w1))
              | _ => (Return tt, w1)
              end
          | Some VOther =>
              (Return tt,
               exec (config_remove_autoload name ;; config_save_config) w1)
          | None => (Return tt, w1)
          end
        else (Return tt, w1)
    | None => (Return tt, w1)
    end.
Proof.
  unfold _autoload.
  rewrite (bind_return _ _ _ tt (exec (refresh_devices (Some device)) w))
    by (unfold exec; rewrite refresh_devices_run; reflexivity).
  cbv zeta. generalize (exec (refresh_devices (Some device)) w). intros w1.
  rewrite (bind_return _ _ _ _ _ (path_to_device_name_run _ _)).
  fold (resolved device w1). unfold get_devices. rewrite bind_gets.
  destruct (resolved device w1) as [name|]; [|reflexivity].
  destruct (known_name name (devices w1)); cbn [negb]; [|reflexivity].
  unfold config_get_autoload. rewrite bind_gets.
  destruct (cfg_autoload (config w1) !! name) as [[preset|]|];
    [|reflexivity|reflexivity].
  unfold outcome. rewrite bind_run, may_autoload_run. cbn [fst].
  destruct (match autoload_history w1 !! name with
            | Some (timestamp, stored) => _ | None => true end);
    cbn [negb]; [|reflexivity].
  destruct (start_injecting_frame name preset w1) as ([success Hsuccess] & _).
  rewrite bind_run.
  destruct (start_injecting name preset w1) as [started w2] eqn:Hstart.
  unfold outcome in Hsuccess. rewrite Hstart in Hsuccess. cbn in Hsuccess.
  subst started. unfold exec. rewrite Hstart. reflexivity.
Qed.

(** The device is known to the registry once refreshed on demand, under
    the logical name [name], and a preset is configured for it. *)
Definition autoload_ready (device name preset : string) (w : World) : Prop :=
  resolved device (exec (refresh_devices (Some device)) w) = Some name
  ∧ known_name name (devices (exec (refresh_devices (Some device)) w)) = true
  ∧ cfg_autoload (config w) !! name = Some (VStr preset).

Lemma may_autoload_depends device preset w1 w2 :
  autoload_history w1 = autoload_history w2 → now w1 = now w2 →
  outcome (may_autoload device preset) w1 = outcome (may_autoload device preset) w2.
Proof.
  intros Hhistory Hnow. unfold outcome. rewrite !may_autoload_run. cbn.
  by rewrite Hhistory, Hnow.
Qed.

Lemma autoload_ready_run device name preset w :
  autoload_ready device name preset w →
  _autoload device w =
    (Return tt,
     match outcome (may_autoload name preset) w with
     | Return true =>
         exec (remember name preset)
           (exec (start_injecting name preset)
              (exec (refresh_devices (Some device)) w))
     | _ => exec (refresh_devices (Some device)) w
     end).
Proof.
  intros (Hname & Hknown & Hpreset). rewrite autoload_run. cbv zeta.
  destruct (refresh_devices_frame (Some device) w) as (Hhistory & Hconfig & Hnow & _).
  rewrite Hname, Hknown, Hconfig, Hpreset.
  rewrite (may_autoload_depends name preset _ w Hhistory Hnow).
  destruct (outcome (may_autoload name preset) w) as [[]|]; reflexivity.
Qed.

(** An approved autoload: one invocation of [start_injecting], then the
    record in the history. *)
Lemma autoload_started device name preset w :
  let w' := exec (remember name preset)
              (exec (start_injecting name preset)
                 (exec (refresh_devices (Some device)) w)) in
  (∃ before after,
     trace w' = trace w ++ before ++ CallStartInjecting name preset
                  :: after ++ [CallRemember name preset]
     ∧ start_calls before = 0 ∧ start_calls after = 0)
  ∧ autoload_history w' !! name = Some (now w, preset).
Proof.
  cbv zeta.
  destruct (refresh_devices_frame (Some device) w)
    as (_ & _ & Hnow1 & before & Htrace1 & Hbefore).
  revert Hnow1 Htrace1.
  generalize (exec (refresh_devices (Some device)) w). intros w1 Hnow1 Htrace1.
  destruct (start_injecting_frame name preset w1)
    as (_ & Hnow2 & after & Htrace2 & Hafter).
  revert Hnow2 Htrace2.
  generalize (exec (start_injecting name preset) w1). intros w2 Hnow2 Htrace2.
  unfold exec. rewrite remember_run. cbn. split.
  - exists before, after. rewrite Htrace2, Htrace1, <- !app_assoc. done.
  - rewrite lookup_insert_eq. congruence.
Qed.

(** C3: for a device that the registry knows and that has an autoload
    preset configured, starting from a history that approves the autoload:
    the first [_autoload] invokes [start_injecting] once and records the
    attempt in the history afterwards; a second [_autoload] no more than 15
    seconds later invokes nothing, so that one invocation was made in
    total, and a second [_autoload] more than 15 seconds later invokes
    [start_injecting] again, which makes two. *)
Theorem autoload_debounce (device name preset : string) (first second : World) :
  autoload_ready device name preset first →
  outcome (may_autoload name preset) first = Return true →
  autoload_history second = autoload_history (exec (_autoload device) first) →
  trace second = trace (exec (_autoload device) first) →
  autoload_ready device name preset second →
  outcome (_autoload device) first = Return tt ∧
  outcome (_autoload device) second = Return tt ∧
  (∃ before after,
     trace (exec (_autoload device) first)
       = trace first ++ before ++ CallStartInjecting name preset
           :: after ++ [CallRemember name preset]
     ∧ start_calls before = 0 ∧ start_calls after = 0) ∧
  start_calls (trace (exec (_autoload device) first))
    = S (start_calls (trace first)) ∧
  autoload_history (exec (_autoload device) first) !! name
    = Some (now first, preset) ∧
  ((now second - now first <= 15)%Q →
     start_calls (trace (exec (_autoload device) second))
       = S (start_calls (trace first))) ∧
  ((15 < now second - now first)%Q →
     start_calls (trace (exec (_autoload device) second))
       = S (S (start_calls (trace first)))).
Proof.
  intros Hready1 Happroved Hhistory Htrace Hready2.
  pose proof (autoload_ready_run _ _ _ _ Hready1) as Hrun1.
  pose proof (autoload_ready_run _ _ _ _ Hready2) as Hrun2.
  rewrite Happroved in Hrun1.
  assert (exec (_autoload device) first
          = exec (remember name preset)
              (exec (start_injecting name preset)
                 (exec (refresh_devices (Some device)) first))) as Hexec1
    by (unfold exec at 1; by rewrite Hrun1).
  rewrite Hexec1 in *.
  destruct (autoload_started device name preset first)
    as ((before & after & Htrace1 & Hbefore & Hafter) & Hentry).
  cbv zeta in Htrace1, Hentry.
  assert (start_calls (trace second) = S (start_calls (trace first))) as Hone.
  { rewrite Htrace, Htrace1.
    rewrite !start_calls_app. cbn. rewrite start_calls_app. cbn. lia. }
  split; [unfold outcome; by rewrite Hrun1|].
  split; [unfold outcome; by rewrite Hrun2|].
  split; [eauto|]. split; [by rewrite <- Htrace|]. split; [done|].
  assert (outcome (may_autoload name preset) second
          = Return (Qltb (now first) (now second - 15)%Q)) as Hsecond.
  { unfold outcome. rewrite may_autoload_run. cbn.
    rewrite Hhistory, Hentry. by rewrite bool_decide_eq_true_2. }
  rewrite Hsecond in Hrun2.
  assert (exec (_autoload device) second
          = if Qltb (now first) (now second - 15)%Q
            then exec (remember name preset)
                   (exec (start_injecting name preset)
                      (exec (refresh_devices (Some device)) second))
            else exec (refresh_devices (Some device)) second) as ->
    by (unfold exec at 1; by rewrite Hrun2).
  split.
  - intros Hwithin. rewrite (proj2 (Qltb_ge _ _)) by lra.
    destruct (refresh_devices_frame (Some device) second)
      as (_ & _ & _ & calls & -> & Hcalls).
    rewrite start_calls_app. lia.
  - intros Hlater. rewrite (proj2 (Qltb_lt _ _)) by lra.
    destruct (autoload_started device name preset second)
      as ((before2 & after2 & Htrace2 & Hbefore2 & Hafter2) & _).
    cbv zeta in Htrace2. rewrite Htrace2.
    rewrite !start_calls_app. cbn. rewrite start_calls_app. cbn. lia.
Qed.

End Daemon.

(** * Beyond the registry: the remaining behaviour of the daemon *)

Section Behaviour.
Context `{Formats}.

Ltac msteps :=
  repeat first [rewrite bind_gets | rewrite bind_modify | rewrite bind_mret].

(** ** What a call leaves alone *)

(** The surroundings of the daemon that its start and stop methods only
    read: the configuration directory, the configuration, the files, the
    clock, the operating system and the hardware. *)
Definition same_surroundings (w w' : World) : Prop :=
  config_dir w' = config_dir w ∧ config w' = config w
  ∧ filesystem w' = filesystem w ∧ now w' = now w
  ∧ injector_oserror w' = injector_oserror w ∧ hardware w' = hardware w.

Lemma same_surroundings_refl w : same_surroundings w w.
Proof. by repeat split. Qed.

Lemma same_surroundings_trans w1 w2 w3 :
  same_surroundings w1 w2 → same_surroundings w2 w3 → same_surroundings w1 w3.
Proof.
  intros (?&?&?&?&?&?) (?&?&?&?&?&?). repeat split; congruence.
Qed.

Lemma refresh_devices_surroundings device w :
  same_surroundings w (exec (refresh_devices device) w)
  ∧ injectors (exec (refresh_devices device) w) = injectors w
  ∧ autoload_history (exec (refresh_devices device) w) = autoload_history w
  ∧ system_mapping (exec (refresh_devices device) w) = system_mapping w.
Proof.
  destruct (refresh_devices_cases device w) as [-> | ->]; by repeat split.
Qed.

Lemma entered_surroundings device preset w :
  same_surroundings w (entered device preset w)
  ∧ injectors (entered device preset w) = injectors w
  ∧ autoload_history (entered device preset w) = autoload_history w
  ∧ system_mapping (entered device preset w) = system_mapping w.
Proof.
  destruct (entered_cases device preset w) as [-> | ->]; by repeat split.
Qed.

Lemma stop_injecting_surroundings device w :
  same_surroundings w (exec (stop_injecting device) w)
  ∧ system_mapping (exec (stop_injecting device) w) = system_mapping w
  ∧ devices (exec (stop_injecting device) w) = devices w.
Proof.
  unfold exec. rewrite stop_injecting_run. cbn.
  destruct (injectors w !! device); by repeat split.
Qed.

Lemma load_xmodmap_surroundings dir w :
  same_surroundings w (load_xmodmap dir w)
  ∧ injectors (load_xmodmap dir w) = injectors w
  ∧ autoload_history (load_xmodmap dir w) = autoload_history w
  ∧ trace (load_xmodmap dir w) = trace w.
Proof. unfold load_xmodmap. destruct (filesystem w !! _); by repeat split. Qed.

(** ** [start_injecting], case by case *)

(** The injector a successful start registers. *)
Definition new_injector (name text : string) : Injector :=
  {| inj_device := name; inj_mapping := parse_preset text; inj_state := STARTING |}.

(** Everything a start needs, short of the operating system: the directory
    is set, the identifier resolves to the known name [name], and the preset
    file holds [text]. *)
Definition startable (device preset dir name text : string) (w : World) : Prop :=
  config_dir w = Some dir
  ∧ resolved device (entered device preset w) = Some name
  ∧ known_name name (devices (entered device preset w)) = true
  ∧ filesystem w !! os_path_join dir ["presets"; name; preset +:+ ".json"]
      = Some text.

Lemma startable_unique device preset dir1 name1 text1 dir2 name2 text2 w :
  startable device preset dir1 name1 text1 w →
  startable device preset dir2 name2 text2 w →
  dir1 = dir2 ∧ name1 = name2 ∧ text1 = text2.
Proof.
  intros (Hd1 & Hn1 & _ & Hf1) (Hd2 & Hn2 & _ & Hf2).
  assert (dir1 = dir2) as -> by congruence.
  assert (name1 = name2) as -> by congruence.
  split; [done|]. split; [done|]. congruence.
Qed.

(** The two ways a start ends: it gives up before anything was touched, or
    it got as far as the operating system. *)
Lemma start_injecting_cases device preset w :
  let w' := exec (start_injecting device preset) w in
  same_surroundings w w'
  ∧ ((outcome (start_injecting device preset) w = Return false
      ∧ (∀ dir name text, ¬ startable device preset dir name text w)
      ∧ injectors w' = injectors w
      ∧ autoload_history w' = autoload_history w
      ∧ system_mapping w' = system_mapping w
      ∧ ∀ stopped_device, CallInjectorStop stopped_device ∈ trace w' →
                          CallInjectorStop stopped_device ∈ trace w)
     ∨ (∃ dir name text,
          startable device preset dir name text w
          ∧ outcome (start_injecting device preset) w
              = Return (negb (injector_oserror w))
          ∧ injectors w'
              = (if injector_oserror w then alter stopped name (injectors w)
                 else <[name := new_injector name text]> (injectors w))
          ∧ autoload_history w'
              = (if bool_decide (is_Some (injectors w !! name))
                 then delete name (autoload_history w) else autoload_history w)
          ∧ system_mapping w'
              = match filesystem w !! os_path_join dir [XMODMAP_FILENAME] with
                | Some xmodmap => xmodmap_to_dict xmodmap ∪ system_mapping w
                | None => system_mapping w
                end
          ∧ (is_Some (injectors w !! name) → CallInjectorStop name ∈ trace w'))).
Proof.
  cbv zeta. unfold outcome, exec, startable. rewrite start_injecting_run.
  cbv zeta.
  destruct (entered_surroundings device preset w)
    as (Hsame & Hinj & Hhistory & Hsystem).
  destruct (entered_frame device preset w) as (_ & _ & _ & _ & _ & Htrace).
  assert (∀ stopped_device,
            CallInjectorStop stopped_device ∈ trace (entered device preset w) →
            CallInjectorStop stopped_device ∈ trace w) as Hquiet.
  { intros stopped_device.
    destruct Htrace as [-> | ->]; rewrite elem_of_app;
      intros [Hold|Hnew]; auto; exfalso.
    - apply list_elem_of_singleton in Hnew. discriminate.
    - apply elem_of_cons in Hnew as [Hnew|Hnew]; [discriminate|].
      apply list_elem_of_singleton in Hnew. discriminate. }
  clear Htrace. revert Hsame Hinj Hhistory Hsystem Hquiet.
  generalize (entered device preset w). intros w1 Hsame Hinj Hhistory Hsystem Hquiet.
  pose proof Hsame as (Hdir & _ & Hfs & _ & Hos & _).
  destruct (config_dir w1) as [dir|] eqn:Hdir1.
  2:{ split; [done|]. left.
      cbn [fst snd]. repeat split; auto. intros ??? (?&?&?&?). congruence. }
  destruct (resolved device w1) as [name|] eqn:Hname.
  2:{ split; [done|]. left. cbn [fst snd]. repeat split; auto.
      intros ??? (?&?&?&?). congruence. }
  destruct (known_name name (devices w1)) eqn:Hknown.
  2:{ split; [done|]. left. cbn [fst snd]. repeat split; auto.
      intros ??? (?&?&?&?). congruence. }
  destruct (filesystem w1 !! os_path_join dir ["presets"; name; preset +:+ ".json"])
    as [text|] eqn:Hfile.
  2:{ split; [done|]. left. cbn [fst snd]. repeat split; auto.
      intros ??? (?&?&?&?). congruence. }
  destruct (stop_injecting_surroundings name w1) as (Hsame1 & Hsystem1 & _).
  destruct (load_xmodmap_surroundings dir (exec (stop_injecting name) w1))
    as (Hsame2 & Hinj2 & Hhistory2 & Htrace2).
  pose proof (same_surroundings_trans _ _ _ Hsame
                (same_surroundings_trans _ _ _ Hsame1 Hsame2)) as Hsame3.
  assert (injectors (load_xmodmap dir (exec (stop_injecting name) w1))
          = alter stopped name (injectors w)) as Hinj3
    by (by rewrite Hinj2, stop_injecting_injectors, Hinj).
  assert (autoload_history (load_xmodmap dir (exec (stop_injecting name) w1))
          = (if bool_decide (is_Some (injectors w !! name))
             then delete name (autoload_history w) else autoload_history w))
    as Hhistory3
    by (by rewrite Hhistory2, stop_injecting_history, Hinj, Hhistory).
  assert (system_mapping (load_xmodmap dir (exec (stop_injecting name) w1))
          = match filesystem w !! os_path_join dir [XMODMAP_FILENAME] with
            | Some xmodmap => xmodmap_to_dict xmodmap ∪ system_mapping w
            | None => system_mapping w
            end) as Hsystem3.
  { unfold load_xmodmap.
    destruct Hsame1 as (_ & _ & Hfs1 & _). rewrite Hfs1, Hfs.
    destruct (filesystem w !! os_path_join dir [XMODMAP_FILENAME]); cbn;
      by rewrite Hsystem1, Hsystem. }
  assert (is_Some (injectors w !! name) →
          CallInjectorStop name
            ∈ trace (load_xmodmap dir (exec (stop_injecting name) w1)))
    as Hstopped.
  { intros [injector Hreg]. rewrite Htrace2. unfold exec.
    rewrite stop_injecting_run, Hinj, Hreg. cbn.
    apply elem_of_app. right. apply list_elem_of_here. }
  assert (injector_oserror (load_xmodmap dir (exec (stop_injecting name) w1))
          = injector_oserror w) as Hos3 by (by destruct Hsame3 as (_&_&_&_&?&_)).
  revert Hsame3 Hinj3 Hhistory3 Hsystem3 Hstopped Hos3.
  generalize (load_xmodmap dir (exec (stop_injecting name) w1)).
  intros w3 Hsame3 Hinj3 Hhistory3 Hsystem3 Hstopped Hos3.
  rewrite Hos3.
  assert (config_dir w = Some dir) as Hdir0 by congruence.
  assert (filesystem w !! os_path_join dir ["presets"; name; preset +:+ ".json"]
          = Some text) as Hfile0 by congruence.
  destruct (injector_oserror w) eqn:Hrefused;
    cbn [fst snd negb injectors set_injectors autoload_history system_mapping trace].
  - split; [done|]. right. exists dir, name, text. by repeat split.
  - split; [by destruct Hsame3 as (?&?&?&?&?&?)|]. right. exists dir, name, text.
    split; [done|]. split; [done|]. split.
    { rewrite Hinj3. apply map_eq. intros other.
      destruct (decide (other = name)) as [->|Hne].
      - by rewrite !lookup_insert_eq.
      - by rewrite !lookup_insert_ne, lookup_alter_ne by done. }
    by repeat split.
Qed.


(** X2: a start that succeeds puts one new injector, starting and built
    from the preset file, under the resolved name; every other entry of the
    registry is as before, and [get_state] of the name reports [STARTING]. *)
Theorem start_injecting_registers
    (device preset dir name text : string) (w : World) :
  startable device preset dir name text w →
  injector_oserror w = false →
  outcome (start_injecting device preset) w = Return true ∧
  injectors (exec (start_injecting device preset) w)
    = <[name := new_injector name text]> (injectors w) ∧
  (∀ other, other ≠ name →
     injectors (exec (start_injecting device preset) w) !! other
       = injectors w !! other) ∧
  outcome (get_state name) (exec (start_injecting device preset) w)
    = Return STARTING.
Proof.
  intros Hstart Hos.
  destruct (start_injecting_cases device preset w)
    as (_ & [(_ & Hnot & _) | (dir' & name' & text' & Hstart' & Hout & Hinj & _)]).
  { by destruct (Hnot dir name text). }
  destruct (startable_unique _ _ _ _ _ _ _ _ _ Hstart Hstart') as (<- & <- & <-).
  rewrite Hos in Hout, Hinj. cbn [negb] in Hout.
  split; [done|]. split; [done|]. split.
  - intros other Hne. by rewrite Hinj, lookup_insert_ne.
  - unfold outcome, get_state. rewrite bind_gets, Hinj, lookup_insert_eq.
    reflexivity.
Qed.

(** X3: a start that gets as far as the preset file, whether it succeeds
    or not, first tells a registered injector of the device to stop and
    deletes the history entry of the device, so that the next autoload is
    approved; without a registered injector the history is left as it is. *)
Theorem start_injecting_forgets
    (device preset dir name text : string) (w : World) :
  startable device preset dir name text w →
  (is_Some (injectors w !! name) →
     autoload_history (exec (start_injecting device preset) w)
       = delete name (autoload_history w) ∧
     CallInjectorStop name ∈ trace (exec (start_injecting device preset) w) ∧
     ∀ other_preset,
       outcome (may_autoload name other_preset)
         (exec (start_injecting device preset) w) = Return true) ∧
  (injectors w !! name = None →
     autoload_history (exec (start_injecting device preset) w)
       = autoload_history w).
Proof.
  intros Hstart.
  destruct (start_injecting_cases device preset w)
    as (_ & [(_ & Hnot & _)
            | (dir' & name' & text' & Hstart' & _ & _ & Hhistory & _ & Hstop)]).
  { by destruct (Hnot dir name text). }
  destruct (startable_unique _ _ _ _ _ _ _ _ _ Hstart Hstart') as (<- & <- & <-).
  split.
  - intros Hreg. rewrite bool_decide_eq_true_2 in Hhistory by done.
    split; [done|]. split; [auto|].
    intros other_preset. apply may_autoload_approved. left.
    rewrite Hhistory. apply lookup_delete_eq.
  - intros Hnone. rewrite bool_decide_eq_false_2 in Hhistory; [done|].
    rewrite Hnone. by intros [? [=]].
Qed.

(** X4: when the operating system refuses the new injector,
    [start_injecting] returns false without raising, but the injector that
    was registered for the device has already been stopped: it stays in the
    registry, stopped, and nothing replaces it. *)
Theorem start_injecting_refused
    (device preset dir name text : string) (w : World) :
  startable device preset dir name text w →
  injector_oserror w = true →
  outcome (start_injecting device preset) w = Return false ∧
  injectors (exec (start_injecting device preset) w)
    = alter stopped name (injectors w) ∧
  (∀ injector, injectors w !! name = Some injector →
     injectors (exec (start_injecting device preset) w) !! name
       = Some (stopped injector)) ∧
  (injectors w !! name = None →
     injectors (exec (start_injecting device preset) w) !! name = None).
Proof.
  intros Hstart Hos.
  destruct (start_injecting_cases device preset w)
    as (_ & [(_ & Hnot & _) | (dir' & name' & text' & Hstart' & Hout & Hinj & _)]).
  { by destruct (Hnot dir name text). }
  destruct (startable_unique _ _ _ _ _ _ _ _ _ Hstart Hstart') as (<- & <- & <-).
  rewrite Hos in Hout, Hinj. cbn [negb] in Hout.
  split; [done|]. split; [done|]. rewrite Hinj. split.
  - intros injector Hreg. by rewrite lookup_alter_eq, Hreg.
  - intros Hnone. by rewrite lookup_alter_eq, Hnone.
Qed.

(** X5: a start that gives up before the preset is loaded (no
    configuration directory, an identifier that does not resolve, a device
    the registry does not know, a missing preset file) returns false and
    leaves the registry, the history and the keycode table as they were; no
    injector is told to stop. *)
Theorem start_injecting_gives_up (device preset : string) (w : World) :
  (∀ dir name text, ¬ startable device preset dir name text w) →
  outcome (start_injecting device preset) w = Return false ∧
  injectors (exec (start_injecting device preset) w) = injectors w ∧
  autoload_history (exec (start_injecting device preset) w) = autoload_history w ∧
  system_mapping (exec (start_injecting device preset) w) = system_mapping w ∧
  (∀ stopped_device,
     CallInjectorStop stopped_device ∈ trace (exec (start_injecting device preset) w) →
     CallInjectorStop stopped_device ∈ trace w).
Proof.
  intros Hnot.
  destruct (start_injecting_cases device preset w)
    as (_ & [(Hfalse & _ & Hinj & Hhistory & Hsystem & Hquiet)
            | (dir & name & text & Hstart & _)]).
  - done.
  - by destruct (Hnot dir name text).
Qed.

(** ** Raw paths and logical names *)

Lemma group_of_path_known path groups name :
  group_of_path path groups = Some name → name ∈ groups.*1.
Proof.
  induction groups as [|[device paths] groups IH]; [done|]. cbn.
  case_bool_decide.
  - intros [= ->]. apply list_elem_of_here.
  - intros Hrest. apply list_elem_of_further. auto.
Qed.

Lemma group_of_path_located path groups :
  is_Some (group_of_path path groups)
    ↔ existsb (λ group, bool_decide (path ∈ group.2)) groups = true.
Proof.
  induction groups as [|[device paths] groups IH]; cbn.
  - split; [by intros [? [=]]|done].
  - case_bool_decide; cbn; [|done]. split; eauto.
Qed.

(** A start by raw path and a start by the name the path resolves to meet
    the same conditions. *)
Lemma startable_by_path path name preset dir text w :
  is_input_path path = true → is_input_path name = false →
  resolved path (entered path preset w) = Some name →
  startable path preset dir name text w ↔ startable name preset dir name text w.
Proof.
  intros Hpath Hname Hresolved. unfold startable.
  assert (resolved name (entered name preset w) = Some name) as ->
    by (unfold resolved; by rewrite Hname).
  rewrite Hresolved.
  assert (known_name name (devices (entered path preset w)) = true) as ->.
  { apply known_name_true. unfold resolved in Hresolved.
    rewrite Hpath in Hresolved. by eapply group_of_path_known. }
  assert (known_name name (devices (entered name preset w)) = true) as ->;
    [|tauto].
  unfold resolved in Hresolved. rewrite Hpath in Hresolved.
  revert Hresolved. unfold entered, exec. rewrite !refresh_devices_run.
  cbn [snd now refreshed_devices_at log devices]. rewrite Hpath, Hname.
  destruct (Qltb _ _).
  { intros Hgroup. apply known_name_true. by eapply group_of_path_known. }
  destruct (known_name name (devices w)) eqn:Hknown; [done|].
  destruct (existsb _ (devices w)) eqn:Hscan.
  - intros Hgroup%group_of_path_known. cbn in Hgroup.
    apply known_name_true in Hgroup. congruence.
  - intros Hgroup%group_of_path_known. by apply known_name_true.
Qed.

(** X6: when a raw path resolves to a logical name, starting by the path
    and starting by the name return the same and leave the same registry,
    history and keycode table. *)
Theorem start_injecting_by_path (path name preset : string) (w : World) :
  is_input_path path = true → is_input_path name = false →
  resolved path (entered path preset w) = Some name →
  outcome (start_injecting path preset) w
    = outcome (start_injecting name preset) w ∧
  injectors (exec (start_injecting path preset) w)
    = injectors (exec (start_injecting name preset) w) ∧
  autoload_history (exec (start_injecting path preset) w)
    = autoload_history (exec (start_injecting name preset) w) ∧
  system_mapping (exec (start_injecting path preset) w)
    = system_mapping (exec (start_injecting name preset) w).
Proof.
  intros Hpath Hname Hresolved.
  pose proof (λ dir text, startable_by_path path name preset dir text w
                            Hpath Hname Hresolved) as Hsame.
  assert (∀ dir name' text, startable path preset dir name' text w → name' = name)
    as Hnames by (intros ??? (_ & ? & _); congruence).
  destruct (start_injecting_cases path preset w)
    as (_ & [(Hout1 & Hnot1 & Hinj1 & Hhist1 & Hsys1 & _)
            | (dir1 & name1 & text1 & Hstart1 & Hout1 & Hinj1 & Hhist1 & Hsys1 & _)]);
  destruct (start_injecting_cases name preset w)
    as (_ & [(Hout2 & Hnot2 & Hinj2 & Hhist2 & Hsys2 & _)
            | (dir2 & name2 & text2 & Hstart2 & Hout2 & Hinj2 & Hhist2 & Hsys2 & _)]).
  - by rewrite Hout1, Hout2, Hinj1, Hinj2, Hhist1, Hhist2, Hsys1, Hsys2.
  - exfalso. assert (name2 = name) as ->.
    { destruct Hstart2 as (_ & Hres & _). unfold resolved in Hres.
      rewrite Hname in Hres. congruence. }
    apply (Hnot1 dir2 name text2), Hsame, Hstart2.
  - exfalso. pose proof (Hnames _ _ _ Hstart1) as ->.
    apply (Hnot2 dir1 name text1), Hsame, Hstart1.
  - pose proof (Hnames _ _ _ Hstart1) as ->.
    assert (name2 = name) as ->.
    { destruct Hstart2 as (_ & Hres & _). unfold resolved in Hres.
      rewrite Hname in Hres. congruence. }
    apply Hsame in Hstart1.
    destruct (startable_unique _ _ _ _ _ _ _ _ _ Hstart1 Hstart2) as (<- & _ & <-).
    by rewrite Hout1, Hout2, Hinj1, Hinj2, Hhist1, Hhist2, Hsys1, Hsys2.
Qed.

(** X7: [get_state] and [stop_injecting] take their argument as the key of
    the registry and do not resolve raw paths: after a successful start by
    an identifier that resolved to another name, and that is no key of the
    registry itself, [get_state] of the identifier is [UNKNOWN] and
    [stop_injecting] of the identifier changes nothing, while the injector
    is reached under the name. *)
Theorem identifiers_are_not_resolved
    (device preset dir name text : string) (w : World) :
  startable device preset dir name text w →
  injector_oserror w = false →
  name ≠ device →
  injectors w !! device = None →
  let w' := exec (start_injecting device preset) w in
  outcome (get_state device) w' = Return UNKNOWN ∧
  stop_injecting device w' = (Return tt, w') ∧
  outcome (get_state name) w' = Return STARTING ∧
  outcome (get_state name) (exec (stop_injecting name) w') = Return STOPPED.
Proof.
  intros Hstart Hos Hne Hnone. cbv zeta.
  destruct (start_injecting_cases device preset w)
    as (_ & [(_ & Hnot & _) | (dir' & name' & text' & Hstart' & _ & Hinj & _)]).
  { by destruct (Hnot dir name text). }
  destruct (startable_unique _ _ _ _ _ _ _ _ _ Hstart Hstart') as (<- & <- & <-).
  rewrite Hos in Hinj.
  assert (injectors (exec (start_injecting device preset) w) !! device = None)
    as Habsent by (by rewrite Hinj, lookup_insert_ne).
  assert (injectors (exec (start_injecting device preset) w) !! name
          = Some (new_injector name text)) as Hpresent
    by (by rewrite Hinj, lookup_insert_eq).
  split; [|split; [|split]].
  - unfold outcome, get_state. by rewrite bind_gets, Habsent.
  - by rewrite stop_injecting_run, Habsent.
  - unfold outcome, get_state. by rewrite bind_gets, Hpresent.
  - unfold outcome, get_state.
    by rewrite bind_gets, stop_injecting_injectors, lookup_alter_eq, Hpresent.
Qed.

(** ** The remaining methods of [Daemon] *)

(** [Daemon.__init__]: the attributes of a new daemon.  The exit hook that
    it registers for [stop_all] is outside of the state. *)
Definition Daemon_init : M unit :=
  modify (set_injectors (λ _, ∅)) ;;
  modify (set_config_dir_attr None) ;;
  modify (set_autoload_history (λ _, ∅)) ;;
  modify (set_refreshed_devices_at 0).

(** [Daemon.hello] *)
Definition hello (out : string) : M string := mret out.

(** [needle in haystack] on strings *)
Definition contains (needle haystack : string) : bool :=
  bool_decide (is_Some (String.index 0 needle haystack)).

(** [evdev.InputDevice(path).name]: the name the kernel reports for a device
    node, [None] when opening the node raises [OSError]. *)
Variable InputDevice_name : string → option string.

Definition autoload_single (device : string) : M unit :=
  let configured :=
    dir ← gets config_dir;
    match dir with
    | None => mret tt
    | Some _ => _autoload device
    end in
  if is_input_path device then
    match InputDevice_name device with
    | Some name => if contains "key-mapper" name then mret tt else configured
    | None => mret tt
    end
  else configured.

(** Modelled from the spec: [config.iterate_autoload_presets] of
    [keymapper.config], the sequence of the (device, preset) assignments.
    The table is iterated in the order of [map_to_list]. *)
Definition config_iterate_autoload_presets : M (list (string * value)) :=
  gets (λ w, map_to_list (cfg_autoload (config w))).

Definition autoload : M unit :=
  dir ← gets config_dir;
  match dir with
  | None => mret tt
  | Some _ =>
      autoload_presets ← config_iterate_autoload_presets;
      if bool_decide (length autoload_presets = 0) then mret tt
      else for_each autoload_presets (λ assignment, _autoload assignment.1)
  end.

(** The methods that can be called on a daemon, with their arguments. *)
Inductive call :=
  | Call_stop_injecting (device : string)
  | Call_get_state (device : string)
  | Call_start_injecting (device preset : string)
  | Call_stop_all
  | Call_set_config_dir (dir : string)
  | Call_autoload
  | Call_autoload_single (device : string)
  | Call_hello (out : string)
  | Call_refresh_devices (device : option string).

Definition perform (c : call) : M unit :=
  match c with
  | Call_stop_injecting device => stop_injecting device
  | Call_get_state device => get_state device ;; mret tt
  | Call_start_injecting device preset => start_injecting device preset ;; mret tt
  | Call_stop_all => stop_all
  | Call_set_config_dir dir => set_config_dir dir
  | Call_autoload => autoload
  | Call_autoload_single device => autoload_single device
  | Call_hello out => hello out ;; mret tt
  | Call_refresh_devices device => refresh_devices device
  end.

(** ** What every method keeps *)

(** Every registered injector is registered under the name of its device. *)
Definition keyed (w : World) : Prop :=
  ∀ device injector, injectors w !! device = Some injector →
                     inj_device injector = device.

(** From one state to a later one: what is registered stays registered, the
    keys stay the devices of their injectors, and a configuration directory
    stays set. *)
Definition kept (w w' : World) : Prop :=
  (∀ device, is_Some (injectors w !! device) → is_Some (injectors w' !! device))
  ∧ (keyed w → keyed w')
  ∧ (is_Some (config_dir w) → is_Some (config_dir w')).

Lemma kept_refl w : kept w w.
Proof. by repeat split. Qed.

Lemma kept_trans w1 w2 w3 : kept w1 w2 → kept w2 w3 → kept w1 w3.
Proof. intros (?&?&?) (?&?&?). repeat split; auto. Qed.

Lemma kept_same w w' :
  injectors w' = injectors w → config_dir w' = config_dir w → kept w w'.
Proof.
  intros Hinj Hdir. unfold kept, keyed. rewrite Hinj, Hdir. by repeat split.
Qed.

Lemma kept_stopped name w w' :
  injectors w' = alter stopped name (injectors w) →
  config_dir w' = config_dir w → kept w w'.
Proof.
  intros Hinj Hdir. unfold kept, keyed. rewrite Hinj, Hdir.
  split; [|split; [|done]].
  - intros device Hreg. apply lookup_alter_is_Some. done.
  - intros Hkeyed device injector.
    rewrite lookup_alter. case_decide as Heq.
    + subst. destruct (injectors w !! device) as [old|] eqn:Hold; [|done].
      intros [= <-]. cbn. eauto.
    + eauto.
Qed.

Lemma kept_started name text w w' :
  injectors w' = <[name := new_injector name text]> (injectors w) →
  config_dir w' = config_dir w → kept w w'.
Proof.
  intros Hinj Hdir. unfold kept, keyed. rewrite Hinj, Hdir.
  split; [|split; [|done]].
  - intros device Hreg. rewrite lookup_insert. case_decide; eauto.
  - intros Hkeyed device injector. rewrite lookup_insert.
    case_decide as Heq; [|eauto]. subst. by intros [= <-].
Qed.

Lemma refresh_devices_kept device w :
  outcome (refresh_devices device) w = Return tt
  ∧ kept w (exec (refresh_devices device) w).
Proof.
  split; [unfold outcome; by rewrite refresh_devices_run|].
  destruct (refresh_devices_surroundings device w) as ((Hdir & _) & Hinj & _).
  by apply kept_same.
Qed.

Lemma stop_injecting_kept device w :
  outcome (stop_injecting device) w = Return tt
  ∧ kept w (exec (stop_injecting device) w).
Proof.
  split; [unfold outcome; by rewrite stop_injecting_run|].
  destruct (stop_injecting_surroundings device w) as ((Hdir & _) & _).
  eapply kept_stopped; [apply stop_injecting_injectors|done].
Qed.

Lemma start_injecting_kept device preset w :
  (∃ success, outcome (start_injecting device preset) w = Return success)
  ∧ kept w (exec (start_injecting device preset) w).
Proof.
  destruct (start_injecting_cases device preset w)
    as ((Hdir & _) & [(Hout & _ & Hinj & _)
                     | (dir & name & text & _ & Hout & Hinj & _)]).
  - split; [eauto|]. by apply kept_same.
  - split; [eauto|]. destruct (injector_oserror w).
    + by eapply kept_stopped.
    + by eapply kept_started.
Qed.

Lemma remember_kept device preset w :
  kept w (exec (remember device preset) w).
Proof. unfold exec. rewrite remember_run. by apply kept_same. Qed.

Lemma for_each_kept {A} (body : A → M unit) (items : list A) w :
  (∀ item w, outcome (body item) w = Return tt ∧ kept w (exec (body item) w)) →
  outcome (for_each items body) w = Return tt
  ∧ kept w (exec (for_each items body) w).
Proof.
  intros Hbody. revert w.
  induction items as [|item items IH]; intros w.
  - split; [done|apply kept_refl].
  - destruct (Hbody item w) as (Hout & Hkept).
    unfold outcome, exec in *. cbn [for_each]. rewrite bind_run.
    destruct (body item w) as [done w1]. cbn in Hout, Hkept. subst done.
    destruct (IH w1) as (Hout' & Hkept').
    split; [done|]. by eapply kept_trans.
Qed.

Lemma stop_all_kept w :
  outcome stop_all w = Return tt ∧ kept w (exec stop_all w).
Proof.
  unfold outcome, exec, stop_all. rewrite bind_gets.
  apply for_each_kept. intros. apply stop_injecting_kept.
Qed.

Lemma set_config_dir_kept dir w :
  outcome (set_config_dir dir) w = Return tt
  ∧ kept w (exec (set_config_dir dir) w).
Proof.
  unfold outcome, exec, set_config_dir, os_path_exists. cbv zeta.
  rewrite bind_gets. case_bool_decide as Hfile; cbn [negb].
  - destruct Hfile as [text Hfile]. unfold config_load_config. msteps.
    cbn [filesystem set_config_dir_attr]. rewrite Hfile.
    split; [done|]. cbn. repeat split; eauto.
  - split; [done|apply kept_refl].
Qed.

Lemma autoload_kept device w :
  outcome (_autoload device) w = Return tt
  ∧ kept w (exec (_autoload device) w).
Proof.
  unfold outcome, exec. rewrite autoload_run. cbv zeta.
  destruct (refresh_devices_kept (Some device) w) as (_ & Hrefresh).
  revert Hrefresh. generalize (exec (refresh_devices (Some device)) w).
  intros w1 Hrefresh.
  destruct (resolved device w1) as [name|]; [|done].
  destruct (known_name name (devices w1)); [|done].
  destruct (cfg_autoload (config w1) !! name) as [[preset|]|]; [| |done].
  - destruct (outcome (may_autoload name preset) w1) as [[]|]; [|done|done].
    split; [done|]. cbn [snd]. eapply kept_trans; [done|].
    eapply kept_trans; [apply start_injecting_kept|].
    apply remember_kept.
  - split; [done|]. cbn [snd]. eapply kept_trans; [done|]. by apply kept_same.
Qed.

Lemma autoload_all_kept w :
  outcome autoload w = Return tt ∧ kept w (exec autoload w).
Proof.
  unfold outcome, exec, autoload, config_iterate_autoload_presets.
  rewrite bind_gets. destruct (config_dir w); [|split; [done|apply kept_refl]].
  rewrite bind_gets. case_bool_decide; [split; [done|apply kept_refl]|].
  apply for_each_kept. intros. apply autoload_kept.
Qed.

Lemma autoload_single_kept device w :
  outcome (autoload_single device) w = Return tt
  ∧ kept w (exec (autoload_single device) w).
Proof.
  assert (outcome (dir ← gets config_dir;
                   match dir with
                   | None => mret tt
                   | Some _ => _autoload device
                   end) w = Return tt
          ∧ kept w (exec (dir ← gets config_dir;
                          match dir with
                          | None => mret tt
                          | Some _ => _autoload device
                          end) w)) as Hconfigured.
  { unfold outcome, exec. rewrite bind_gets.
    destruct (config_dir w); [apply autoload_kept|split; [done|apply kept_refl]]. }
  unfold autoload_single. cbv zeta.
  destruct (is_input_path device); [|done].
  destruct (InputDevice_name device) as [name|]; [|split; [done|apply kept_refl]].
  destruct (contains "key-mapper" name); [split; [done|apply kept_refl]|done].
Qed.

Lemma perform_kept c w :
  outcome (perform c) w = Return tt ∧ kept w (exec (perform c) w).
Proof.
  destruct c as [device|device|device preset| |dir| |device|out|device];
    cbn [perform].
  - apply stop_injecting_kept.
  - unfold outcome, exec, get_state. rewrite bind_run, bind_gets.
    destruct (injectors w !! device); split; try done; apply kept_refl.
  - destruct (start_injecting_kept device preset w) as ([success Hout] & Hkept).
    unfold outcome, exec in *. rewrite bind_run.
    destruct (start_injecting device preset w) as [started w1].
    cbn in Hout. by subst started.
  - apply stop_all_kept.
  - apply set_config_dir_kept.
  - apply autoload_all_kept.
  - apply autoload_single_kept.
  - split; [done|apply kept_refl].
  - apply refresh_devices_kept.
Qed.

(** What happens around the daemon between two calls: the clock, the
    hardware, the files and the configuration may change in any way, and
    the workers may change the state that a registered injector reports;
    the attributes of the daemon are its own. *)
Definition environment (w w' : World) : Prop :=
  config_dir w' = config_dir w
  ∧ autoload_history w' = autoload_history w
  ∧ refreshed_devices_at w' = refreshed_devices_at w
  ∧ ∀ device,
      option_Forall2 (λ injector injector',
                        inj_device injector' = inj_device injector
                        ∧ inj_mapping injector' = inj_mapping injector)
        (injectors w !! device) (injectors w' !! device).

(** One step in the life of the daemon: a method is called, or the
    environment moves. *)
Definition step (w w' : World) : Prop :=
  environment w w' ∨ ∃ c, w' = exec (perform c) w.

Lemma environment_kept w w' : environment w w' → kept w w'.
Proof.
  intros (Hdir & _ & _ & Hinj). split; [|split].
  - intros device [injector Hreg]. specialize (Hinj device).
    rewrite Hreg in Hinj. inversion Hinj. eauto.
  - intros Hkeyed device injector' Hreg. specialize (Hinj device).
    rewrite Hreg in Hinj. inversion Hinj as [injector ? [Hdevice _] Hold|].
    rewrite Hdevice. symmetry in Hold. eauto.
  - by rewrite Hdir.
Qed.

(** X8: whatever methods are called in whatever order, and however the
    environment moves in between, a device that has an entry in the registry
    keeps an entry, every entry stays registered under the name of the
    device of its injector, and a configuration directory that is set stays
    set. *)
Theorem daemon_invariants (w w' : World) :
  rtc step w w' →
  (∀ device, is_Some (injectors w !! device) → is_Some (injectors w' !! device))
  ∧ (keyed w → keyed w')
  ∧ (is_Some (config_dir w) → is_Some (config_dir w')).
Proof.
  intros Hsteps. change (kept w w').
  induction Hsteps as [w|w1 w2 w3 Hstep _ IH]; [apply kept_refl|].
  eapply kept_trans; [|exact IH].
  destruct Hstep as [Henv|[c ->]]; [by apply environment_kept|].
  apply perform_kept.
Qed.


(** ** When [_autoload] starts an injection *)

(** The state [_autoload] leaves behind when a stored preset is no string:
    the assignment is removed and the configuration written back. *)
Definition healed (name : string) (w : World) : World :=
  exec (config_remove_autoload name ;; config_save_config) w.

Lemma healed_fields name w :
  injectors (healed name w) = injectors w
  ∧ autoload_history (healed name w) = autoload_history w
  ∧ config_dir (healed name w) = config_dir w
  ∧ trace (healed name w) = trace w
  ∧ cfg_autoload (config (healed name w)) = delete name (cfg_autoload (config w))
  ∧ cfg_path (config (healed name w)) = cfg_path (config w)
  ∧ filesystem (healed name w)
      = <[cfg_path (config w) := dump_config (delete name (cfg_autoload (config w)))]>
          (filesystem w).
Proof. by repeat split. Qed.

(** [_autoload] either starts one injection and records it, or starts
    none and leaves registry and history as they are. *)
Lemma autoload_cases device w :
  let w' := exec (_autoload device) w in
  ((∃ name preset,
      autoload_ready device name preset w ∧ approved name preset w
      ∧ autoload_history w' !! name = Some (now w, preset))
   ∧ start_calls (trace w') = S (start_calls (trace w)))
  ∨ ((¬ ∃ name preset,
        autoload_ready device name preset w ∧ approved name preset w)
     ∧ start_calls (trace w') = start_calls (trace w)
     ∧ injectors w' = injectors w
     ∧ autoload_history w' = autoload_history w
     ∧ config_dir w' = config_dir w).
Proof.
  cbv zeta. unfold exec at 1 2 3 4 5 6. rewrite autoload_run. cbv zeta.
  destruct (refresh_devices_frame (Some device) w)
    as (Hhistory & Hconfig & Hnow & calls & Htrace & Hcalls).
  destruct (refresh_devices_surroundings (Some device) w)
    as ((Hdir & _) & Hinj & _).
  assert (start_calls (trace (exec (refresh_devices (Some device)) w))
          = start_calls (trace w)) as Hcount
    by (rewrite Htrace, start_calls_app; lia).
  assert (∀ name preset,
            outcome (may_autoload name preset)
              (exec (refresh_devices (Some device)) w)
            = outcome (may_autoload name preset) w) as Hmay
    by (intros; by apply may_autoload_depends).
  destruct (resolved device (exec (refresh_devices (Some device)) w))
    as [name|] eqn:Hname.
  2:{ right. split; [|done]. intros (? & ? & (Hres & _) & _). congruence. }
  destruct (known_name name (devices (exec (refresh_devices (Some device)) w)))
    eqn:Hknown.
  2:{ right. split; [|done]. intros (? & ? & (Hres & Hk & _) & _). congruence. }
  rewrite Hconfig.
  destruct (cfg_autoload (config w) !! name) as [[preset|]|] eqn:Hpreset.
  3:{ right. split; [|done]. intros (? & ? & (Hres & _ & Hp) & _). congruence. }
  2:{ right. cbn [snd].
      destruct (healed_fields name (exec (refresh_devices (Some device)) w))
        as (Hinj' & Hhistory' & Hdir' & Htrace' & _).
      fold (healed name (exec (refresh_devices (Some device)) w)).
      rewrite Hinj', Hhistory', Hdir', Htrace'.
      split; [|done]. intros (? & ? & (Hres & _ & Hp) & _). congruence. }
  rewrite Hmay.
  assert (autoload_ready device name preset w) as Hready by done.
  destruct (outcome (may_autoload name preset) w) as [[]|] eqn:Hout.
  - left. cbn [snd].
    destruct (autoload_started device name preset w)
      as ((before & after & Htrace' & Hbefore & Hafter) & Hentry).
    cbv zeta in Htrace', Hentry. split.
    + exists name, preset. split; [done|].
      split; [by apply may_autoload_approved|done].
    + rewrite Htrace'. rewrite !start_calls_app. cbn.
      rewrite start_calls_app. cbn. lia.
  - right. split; [|done].
    intros (name' & preset' & (Hres & _ & Hp) & Happroved).
    assert (name' = name) as -> by congruence.
    assert (preset' = preset) as -> by congruence.
    apply may_autoload_approved in Happroved. congruence.
  - unfold outcome in Hout. rewrite may_autoload_run in Hout. discriminate.
Qed.

(** X10: [_autoload] invokes [start_injecting] exactly when the device is
    known after the refresh on demand, a preset that is a string is
    configured for it and the history approves; it then invokes it once and
    records the attempt.  In every other case (an identifier that does not
    resolve, a device the registry does not know, no preset, a preset that
    is no string, a suppressed repetition) it invokes nothing and leaves the
    registry, the history and the configuration directory as they are. *)
Theorem autoload_starts_iff (device : string) (w : World) :
  (start_calls (trace (exec (_autoload device) w)) = S (start_calls (trace w))
     ↔ ∃ name preset,
         autoload_ready device name preset w ∧ approved name preset w) ∧
  ((¬ ∃ name preset,
       autoload_ready device name preset w ∧ approved name preset w) →
     start_calls (trace (exec (_autoload device) w)) = start_calls (trace w) ∧
     injectors (exec (_autoload device) w) = injectors w ∧
     autoload_history (exec (_autoload device) w) = autoload_history w ∧
     config_dir (exec (_autoload device) w) = config_dir w) ∧
  (∀ name preset,
     autoload_ready device name preset w → approved name preset w →
     autoload_history (exec (_autoload device) w) !! name = Some (now w, preset)).
Proof.
  destruct (autoload_cases device w)
    as [((name & preset & Hready & Happroved & Hentry) & Hcount)
       | (Hnot & Hcount & Hrest)]; cbv zeta in *.
  - split; [split; eauto|]. split.
    + intros Hnot. exfalso. apply Hnot. eauto.
    + intros name' preset' (Hres' & _ & Hp') _.
      destruct Hready as (Hres & _ & Hp).
      assert (name' = name) as -> by congruence.
      assert (preset' = preset) as -> by congruence. done.
  - split; [split|].
    + intros Hone. lia.
    + intros Hsome. by destruct Hnot.
    + split; [done|]. intros name preset Hready Happroved.
      exfalso. apply Hnot. eauto.
Qed.


(** ** The public autoload entry points *)




Lemma substring_here (needle post : string) :
  substring 0 (String.length needle) (needle +:+ post) = needle.
Proof.
  induction needle as [|c needle IH].
  - change ("" +:+ post) with post. by destruct post.
  - change (String c needle +:+ post) with (String c (needle +:+ post)).
    cbn [String.length substring]. f_equal. exact IH.
Qed.

Lemma substring_after (pre rest : string) n :
  substring (String.length pre) n (pre +:+ rest) = substring 0 n rest.
Proof.
  induction pre as [|c pre IH]; [done|].
  change (String c pre +:+ rest) with (String c (pre +:+ rest)).
  cbn [String.length substring]. exact IH.
Qed.

Lemma contains_infix (needle pre post : string) :
  needle ≠ "" → contains needle (pre +:+ needle +:+ post) = true.
Proof.
  intros Hneedle. unfold contains. apply bool_decide_eq_true.
  destruct (String.index 0 needle (pre +:+ needle +:+ post)) eqn:Hindex; [eauto|].
  exfalso.
  apply (index_correct3 0 (String.length pre) needle _ Hindex Hneedle); [lia|].
  by rewrite substring_after, substring_here.
Qed.

(** X13: [autoload_single] changes nothing when the identifier is a raw
    path whose device node cannot be opened, when it is a raw path of a
    device whose name contains [key-mapper] (a device the daemon made
    itself), or when no configuration directory is set; in every other case
    it is [_autoload] of the identifier. *)
Theorem autoload_single_guards (device : string) (w : World) :
  (is_input_path device = true → InputDevice_name device = None →
     autoload_single device w = (Return tt, w)) ∧
  (∀ before after,
     is_input_path device = true →
     InputDevice_name device = Some (before +:+ "key-mapper" +:+ after) →
     autoload_single device w = (Return tt, w)) ∧
  (config_dir w = None → autoload_single device w = (Return tt, w)) ∧
  (is_Some (config_dir w) →
   (is_input_path device = false
    ∨ ∃ name, InputDevice_name device = Some name
              ∧ contains "key-mapper" name = false) →
   autoload_single device w = _autoload device w).
Proof.
  unfold autoload_single. cbv zeta. split; [|split; [|split]].
  - by intros -> ->.
  - intros before after -> ->. by rewrite contains_infix.
  - intros Hnone.
    destruct (is_input_path device);
      [destruct (InputDevice_name device) as [name|];
       [destruct (contains "key-mapper" name)|]|];
      try done; by rewrite bind_gets, Hnone.
  - intros [dir Hdir] Hcase.
    destruct Hcase as [-> | (name & -> & ->)].
    + by rewrite bind_gets, Hdir.
    + destruct (is_input_path device); by rewrite bind_gets, Hdir.
Qed.

(** ** More on the registry cache *)

(** X14: the limit of one refresh in 10 seconds does not hold for
    identifiers the hardware does not have: right after a forced refresh, a
    further [refresh_devices] forces the next refresh exactly when it is
    given an identifier that is not found in what was just enumerated; for
    no identifier, or one that is found, it changes nothing. *)
Theorem refresh_devices_again (device : option string) (w : World) :
  (exec (refresh_devices device) (refreshed w) = refreshed (refreshed w)
     ↔ ∃ name, device = Some name ∧ ¬ located name (hardware w)) ∧
  (exec (refresh_devices device) (refreshed w) = refreshed w
     ↔ ¬ ∃ name, device = Some name ∧ ¬ located name (hardware w)).
Proof.
  unfold exec. rewrite refresh_devices_run.
  cbn [snd refreshed_devices_at now devices refreshed set_refreshed_devices_at
       log set_devices].
  rewrite (proj2 (Qltb_ge (now w) (now w - 10)%Q)) by lra.
  fold (refreshed w).
  destruct device as [name|].
  - destruct (is_input_path name) eqn:Hshape.
    + destruct (existsb _ (hardware w)) eqn:Hscan.
      * apply existsb_located in Hscan; [|done]. split; split.
        -- intros Heq. exfalso.
           first [by apply refreshed_changes in Heq
                 |symmetry in Heq; by apply refreshed_changes in Heq].
        -- intros (? & [= <-] & Hnot). done.
        -- intros _ (? & [= <-] & Hnot). done.
        -- done.
      * assert (¬ located name (hardware w)) as Hnot
          by (intros Hloc%existsb_located; [congruence|done]).
        split; split; eauto.
        -- intros Heq. exfalso.
           first [by apply refreshed_changes in Heq
                 |symmetry in Heq; by apply refreshed_changes in Heq].
        -- intros Hno. exfalso. apply Hno. eauto.
    + destruct (known_name name (hardware w)) eqn:Hknown.
      * apply known_name_true in Hknown.
        assert (located name (hardware w)) as Hloc
          by (unfold located; by rewrite Hshape).
        split; split.
        -- intros Heq. exfalso.
           first [by apply refreshed_changes in Heq
                 |symmetry in Heq; by apply refreshed_changes in Heq].
        -- intros (? & [= <-] & Hnot). done.
        -- intros _ (? & [= <-] & Hnot). done.
        -- done.
      * apply known_name_false in Hknown.
        assert (¬ located name (hardware w)) as Hnot
          by (unfold located; by rewrite Hshape).
        split; split; eauto.
        -- intros Heq. exfalso.
           first [by apply refreshed_changes in Heq
                 |symmetry in Heq; by apply refreshed_changes in Heq].
        -- intros Hno. exfalso. apply Hno. eauto.
  - split; split.
    + intros Heq. exfalso.
           first [by apply refreshed_changes in Heq
                 |symmetry in Heq; by apply refreshed_changes in Heq].
    + intros (? & [=] & _).
    + intros _ (? & [=] & _).
    + done.
Qed.

(** ** More on stopping *)

Lemma stop_each_history_other keys w device :
  ¬ (device ∈ keys ∧ is_Some (injectors w !! device)) →
  autoload_history (stop_each keys w) !! device = autoload_history w !! device.
Proof.
  revert w. induction keys as [|key keys IH]; intros w Hnot; [done|].
  cbn [stop_each fold_left].
  fold (stop_each keys (exec (stop_injecting key) w)).
  rewrite IH.
  - rewrite stop_injecting_history. case_bool_decide as Hreg; [|done].
    apply lookup_delete_ne. intros ->. apply Hnot.
    split; [apply list_elem_of_here|done].
  - intros (Hin & Hreg). apply Hnot. split; [by apply list_elem_of_further|].
    rewrite stop_injecting_injectors in Hreg.
    by apply lookup_alter_is_Some in Hreg.
Qed.

Lemma stop_all_lookup w device :
  injectors (exec stop_all w) !! device = stopped <$> injectors w !! device
  ∧ autoload_history (exec stop_all w) !! device
      = if bool_decide (is_Some (injectors w !! device)) then None
        else autoload_history w !! device.
Proof.
  unfold exec. rewrite stop_all_run. cbn [snd]. split.
  - rewrite stop_each_injectors. case_bool_decide as Hkey; [done|].
    destruct (injectors w !! device) eqn:Hreg; [|done].
    exfalso. apply Hkey, registered_key. eauto.
  - case_bool_decide as Hreg.
    + apply stop_each_history; [by apply registered_key|done].
    + apply stop_each_history_other. by intros (_ & ?).
Qed.

(** X15: [stop_all] stops every registered injector and deletes the
    history entries of exactly the devices that have one; the history of
    every other device stays.  A second [stop_all] changes neither the
    registry nor the history. *)
Theorem stop_all_effect (w : World) :
  (∀ device,
     injectors (exec stop_all w) !! device = stopped <$> injectors w !! device) ∧
  (∀ device, is_Some (injectors w !! device) →
     autoload_history (exec stop_all w) !! device = None) ∧
  (∀ device, injectors w !! device = None →
     autoload_history (exec stop_all w) !! device = autoload_history w !! device) ∧
  injectors (exec stop_all (exec stop_all w)) = injectors (exec stop_all w) ∧
  autoload_history (exec stop_all (exec stop_all w))
    = autoload_history (exec stop_all w).
Proof.
  split; [|split; [|split; [|split]]].
  - intros device. apply stop_all_lookup.
  - intros device Hreg. destruct (stop_all_lookup w device) as (_ & ->).
    by rewrite bool_decide_eq_true_2.
  - intros device Hnone. destruct (stop_all_lookup w device) as (_ & ->).
    rewrite bool_decide_eq_false_2; [done|]. rewrite Hnone. by intros [? [=]].
  - apply map_eq. intros device.
    destruct (stop_all_lookup (exec stop_all w) device) as (-> & _).
    destruct (stop_all_lookup w device) as (-> & _).
    by destruct (injectors w !! device).
  - apply map_eq. intros device.
    destruct (stop_all_lookup (exec stop_all w) device) as (Hinj & ->).
    destruct (stop_all_lookup w device) as (Hinj' & Hhistory).
    rewrite Hinj'. rewrite Hhistory.
    destruct (injectors w !! device) eqn:Hreg;
      cbn [fmap option_fmap option_map].
    + rewrite !bool_decide_eq_true_2 by eauto. done.
    + assert (¬ is_Some (@None Injector)) as Hno by (by intros [? [=]]).
      by rewrite !bool_decide_eq_false_2.
Qed.

(** X16: the outcome of stopping every registered device does not depend
    on the order in which the registry is walked: any list that holds
    exactly the registered devices, in any order and with repetitions,
    leaves the registry and the history that [stop_all] leaves. *)
Theorem stop_all_any_order (order : list string) (w : World) :
  (∀ device, device ∈ order ↔ is_Some (injectors w !! device)) →
  outcome (for_each order stop_injecting) w = Return tt ∧
  injectors (exec (for_each order stop_injecting) w)
    = injectors (exec stop_all w) ∧
  autoload_history (exec (for_each order stop_injecting) w)
    = autoload_history (exec stop_all w).
Proof.
  intros Horder. unfold outcome, exec at 1 3.
  rewrite for_each_stop_injecting_run. cbn [fst snd].
  split; [done|]. split; apply map_eq; intros device.
  - destruct (stop_all_lookup w device) as (-> & _).
    rewrite stop_each_injectors. case_bool_decide as Hin; [done|].
    destruct (injectors w !! device) eqn:Hreg; [|done].
    exfalso. apply Hin, Horder. eauto.
  - destruct (stop_all_lookup w device) as (_ & ->).
    case_bool_decide as Hreg.
    + apply stop_each_history; [by apply Horder|done].
    + apply stop_each_history_other. by intros (_ & ?).
Qed.

(** ** More on the history *)

(** X17: the history is kept per device: [remember], [forget] and
    [stop_injecting] for one device never change what [may_autoload]
    answers for another device. *)
Theorem history_per_device (device other preset other_preset : string) (w : World) :
  device ≠ other →
  outcome (may_autoload other other_preset) (exec (remember device preset) w)
    = outcome (may_autoload other other_preset) w ∧
  outcome (may_autoload other other_preset) (exec (forget device) w)
    = outcome (may_autoload other other_preset) w ∧
  outcome (may_autoload other other_preset) (exec (stop_injecting device) w)
    = outcome (may_autoload other other_preset) w.
Proof.
  intros Hne. unfold outcome. rewrite !may_autoload_run. cbn [fst].
  unfold exec. rewrite remember_run, forget_run, stop_injecting_run.
  cbn [snd autoload_history set_autoload_history log now].
  rewrite lookup_insert_ne, lookup_delete_ne by done.
  split; [done|]. split; [done|].
  destruct (injectors w !! device); [|done].
  cbn. by rewrite lookup_delete_ne.
Qed.

(** X18: [forget] undoes [remember]: for a device without an entry,
    remembering and then forgetting gives back the history as it was; and a
    later [remember] overwrites the entry of an earlier one, so that only
    the preset and the time of the last attempt are kept. *)
Theorem remember_forget (device preset : string) (w : World) :
  (autoload_history w !! device = None →
     autoload_history (exec (forget device) (exec (remember device preset) w))
       = autoload_history w) ∧
  (∀ later newer,
     autoload_history later = autoload_history (exec (remember device preset) w) →
     autoload_history (exec (remember device newer) later)
       = <[device := (now later, newer)]> (autoload_history w)) ∧
  (∀ other_preset,
     outcome (may_autoload device other_preset)
       (exec (forget device) (exec (remember device preset) w)) = Return true).
Proof.
  unfold exec. rewrite remember_run. cbn [snd]. rewrite forget_run. cbn [snd].
  cbn [autoload_history set_autoload_history log].
  split; [|split].
  - intros Hnone. rewrite delete_insert_eq. by apply delete_id.
  - intros later newer Hsame. rewrite remember_run.
    cbn [snd autoload_history set_autoload_history log]. rewrite Hsame.
    apply insert_insert_eq.
  - intros other_preset. apply may_autoload_approved. left.
    cbn [autoload_history set_autoload_history log]. apply lookup_delete_eq.
Qed.

(** ** Where the preset file is looked for *)

Lemma string_app_assoc (a b c : string) : (a +:+ b) +:+ c = a +:+ b +:+ c.
Proof.
  induction a as [|x a IH]; [done|].
  change (String x a +:+ b) with (String x (a +:+ b)).
  change (String x (a +:+ b) +:+ c) with (String x ((a +:+ b) +:+ c)).
  change (String x a +:+ b +:+ c) with (String x (a +:+ b +:+ c)).
  by rewrite IH.
Qed.

Lemma string_app_nonempty (a b : string) : b ≠ "" → a +:+ b ≠ "".
Proof. intros Hb. by destruct a. Qed.

Lemma endswith_sep_app (a b : string) :
  b ≠ "" → endswith_sep (a +:+ b) = endswith_sep b.
Proof.
  intros Hb. induction a as [|x a IH]; [done|].
  change (String x a +:+ b) with (String x (a +:+ b)).
  pose proof (string_app_nonempty a b Hb) as Hrest.
  destruct (a +:+ b) as [|y rest] eqn:Happ; [done|].
  exact IH.
Qed.

Lemma join_component_relative (path b : string) :
  String.prefix "/" b = false → path ≠ "" → endswith_sep path = false →
  join_component path b = path +:+ "/" +:+ b.
Proof.
  intros Hb Hpath Hsep. unfold join_component.
  by rewrite Hb, Hsep, bool_decide_eq_false_2.
Qed.

Lemma prefix_sep_app (preset : string) :
  String.prefix "/" (preset +:+ ".json") = String.prefix "/" preset.
Proof.
  destruct preset as [|c rest]; [vm_compute; reflexivity|].
  change (String c rest +:+ ".json") with (String c (rest +:+ ".json")).
  cbn [String.prefix]. destruct (ascii_dec "/" c); [|done].
  destruct rest; reflexivity.
Qed.

(** X19: the preset is read from [dir/presets/name/preset.json] when the
    directory is not empty and does not end with a slash, the name of the
    device is not empty and neither starts nor ends with a slash, and the
    preset does not start with a slash.  A preset that starts with a slash
    is read from [preset.json] as an absolute path, whatever the
    configuration directory and the device are. *)
Theorem preset_path_spec (dir name preset : string) :
  (dir ≠ "" → endswith_sep dir = false →
   name ≠ "" → String.prefix "/" name = false → endswith_sep name = false →
   String.prefix "/" preset = false →
   os_path_join dir ["presets"; name; preset +:+ ".json"]
     = dir +:+ "/presets/" +:+ name +:+ "/" +:+ preset +:+ ".json") ∧
  (String.prefix "/" preset = true →
   os_path_join dir ["presets"; name; preset +:+ ".json"] = preset +:+ ".json").
Proof.
  unfold os_path_join. cbn [fold_left]. split.
  - intros Hdir Hdirsep Hname Hnameabs Hnamesep Hpreset.
    rewrite (join_component_relative dir "presets") by done.
    rewrite (join_component_relative _ name);
      [|done|by apply string_app_nonempty|by rewrite endswith_sep_app].
    rewrite (join_component_relative _ (preset +:+ ".json"));
      [|by rewrite prefix_sep_app
       |apply string_app_nonempty; by apply string_app_nonempty
       |rewrite !endswith_sep_app; [done|done|by apply string_app_nonempty]].
    rewrite !string_app_assoc. reflexivity.
  - intros Hpreset. unfold join_component at 1.
    by rewrite prefix_sep_app, Hpreset.
Qed.

(** ** A new daemon *)

(** X20: a daemon that was just constructed has no injector and no
    history, and does nothing until [set_config_dir] succeeded: every
    [start_injecting] returns false, [autoload] and [autoload_single] change
    nothing, [get_state] answers [UNKNOWN] and [may_autoload] true. *)
Theorem Daemon_init_spec (device preset : string) (w : World) :
  let w0 := exec Daemon_init w in
  outcome (start_injecting device preset) w0 = Return false ∧
  injectors (exec (start_injecting device preset) w0) = ∅ ∧
  autoload w0 = (Return tt, w0) ∧
  autoload_single device w0 = (Return tt, w0) ∧
  outcome (get_state device) w0 = Return UNKNOWN ∧
  outcome (may_autoload device preset) w0 = Return true.
Proof.
  cbv zeta.
  assert (config_dir (exec Daemon_init w) = None) as Hdir by done.
  assert (injectors (exec Daemon_init w) = ∅) as Hinj by done.
  assert (autoload_history (exec Daemon_init w) = ∅) as Hhistory by done.
  revert Hdir Hinj Hhistory. generalize (exec Daemon_init w).
  intros w0 Hdir Hinj Hhistory.
  destruct (start_injecting_cases device preset w0)
    as (_ & [(Hfalse & _ & Hsame & _) | (dir & name & text & (Hset & _) & _)]);
    [|congruence].
  split; [done|]. split; [by rewrite Hsame|].
  split; [unfold autoload; by rewrite bind_gets, Hdir|].
  split.
  { unfold autoload_single. cbv zeta.
    destruct (is_input_path device);
      [destruct (InputDevice_name device) as [name|];
       [destruct (contains "key-mapper" name)|]|];
      try done; by rewrite bind_gets, Hdir. }
  split.
  - unfold outcome, get_state. by rewrite bind_gets, Hinj, lookup_empty.
  - apply may_autoload_approved. left. by rewrite Hhistory, lookup_empty.
Qed.

End Behaviour.

(** * [Daemon.connect]: reaching the service from a client *)

(** What [connect] gives back: the interface of the service, [None], or
    the end of the process it runs in. *)
Inductive connection :=
  | Connected
  | NotConnected
  | SystemExit (status : Z)
  | UnboundLocalError.

(** The side of the client: whether [SystemBus()] finds the system bus (it
    raises [GLib.GError] otherwise), what the successive calls of
    [bus.get(BUS_NAME)] answer ([false] is a [GLib.GError]), how many such
    calls were made, the commands given to [os.system], and the number of
    [time.sleep(0.2)] so far. *)
Record Client := {
  bus_available : bool;
  answers : nat → bool;
  asked : nat;
  commands : list string;
  slept : nat
}.

Definition bus_get (c : Client) : bool * Client :=
  (answers c (asked c),
   {| bus_available := bus_available c; answers := answers c;
      asked := S (asked c); commands := commands c; slept := slept c |}).

Definition os_system (cmd : string) (c : Client) : Client :=
  {| bus_available := bus_available c; answers := answers c;
     asked := asked c; commands := commands c ++ [cmd]; slept := slept c |}.

Definition time_sleep (c : Client) : Client :=
  {| bus_available := bus_available c; answers := answers c;
     asked := asked c; commands := commands c; slept := S (slept c) |}.

(** [for attempt in range(attempts): ... else: sys.exit(1)] *)
Fixpoint retry (attempts : nat) (c : Client) : connection * Client :=
  match attempts with
  | 0 => (SystemExit 1, c)
  | S rest =>
      let (found, c1) := bus_get c in
      if found then (Connected, c1)
      else retry rest (time_sleep c1)
  end.

(** The command that starts the service; [is_debug] is the answer of
    [keymapper.logger.is_debug()]. *)
Definition start_command (is_debug : bool) : string :=
  "pkexec key-mapper-control --command start-daemon "
    +:+ (if is_debug then " -d" else "").

Definition connect (is_debug fallback : bool) (c : Client) : connection * Client :=
  let except (bound : bool) (c : Client) :=
    if negb fallback then (NotConnected, c)
    else
      let c1 := time_sleep (os_system (start_command is_debug) c) in
      if bound then retry 3 c1 else (UnboundLocalError, c1) in
  if bus_available c then
    let (found, c1) := bus_get c in
    if found then (Connected, c1) else except true c1
  else except false c.

Lemma retry_spec attempts c :
  match (retry attempts c).1 with
  | Connected =>
      ∃ k, k < attempts ∧ answers c (asked c + k) = true
           ∧ (∀ j, j < k → answers c (asked c + j) = false)
           ∧ asked (retry attempts c).2 = asked c + S k
           ∧ slept (retry attempts c).2 = slept c + k
  | SystemExit status =>
      status = 1%Z
      ∧ (∀ j, j < attempts → answers c (asked c + j) = false)
      ∧ asked (retry attempts c).2 = asked c + attempts
      ∧ slept (retry attempts c).2 = slept c + attempts
  | _ => False
  end
  ∧ commands (retry attempts c).2 = commands c
  ∧ answers (retry attempts c).2 = answers c.
Proof.
  revert c. induction attempts as [|attempts IH]; intros c; cbn.
  - split; [|done]. split; [done|]. split; [lia|]. split; lia.
  - destruct (answers c (asked c)) eqn:Hanswer; cbn.
    + split; [|done]. exists 0. rewrite Nat.add_0_r.
      split; [lia|]. split; [done|]. split; [lia|]. split; lia.
    + specialize (IH (time_sleep (bus_get c).2)). cbn in IH.
      destruct IH as (IH & Hcommands & Hanswers). split; [|done].
      destruct (retry attempts _).1 as [| |status|] eqn:Hresult; [|done| |done].
      * destruct IH as (k & Hk & Htrue & Hfalse & Hasked & Hslept).
        exists (S k). split; [lia|].
        split; [by rewrite <- Htrue; f_equal; lia|]. split.
        { intros [|j] Hj; [by rewrite Nat.add_0_r|].
          rewrite <- (Hfalse j) by lia. f_equal. lia. }
        split; lia.
      * destruct IH as (-> & Hfalse & Hasked & Hslept). split; [done|]. split.
        { intros [|j] Hj; [by rewrite Nat.add_0_r|].
          rewrite <- (Hfalse j) by lia. f_equal. lia. }
        split; lia.
Qed.

(** X21: without the fallback [connect] asks the bus at most once, starts
    no command, never sleeps and never ends the process: it gives the
    interface when the bus is there and the service answers at once, and
    [None] in every other case. *)
Theorem connect_without_fallback (is_debug : bool) (c : Client) :
  ((connect is_debug false c).1 = Connected
     ↔ bus_available c = true ∧ answers c (asked c) = true) ∧
  ((connect is_debug false c).1 = NotConnected
     ↔ ¬ (bus_available c = true ∧ answers c (asked c) = true)) ∧
  commands (connect is_debug false c).2 = commands c ∧
  slept (connect is_debug false c).2 = slept c ∧
  (asked (connect is_debug false c).2 ≤ S (asked c))%nat.
Proof.
  unfold connect. cbn.
  destruct (bus_available c); cbn; [destruct (answers c (asked c)); cbn|];
    (split; [|split; [|split; [done|split; [done|lia]]]]); intuition congruence.
Qed.

(** X22: with the fallback and the system bus at hand, [connect] gives the
    interface exactly when one of the first four answers of the bus is
    positive, and ends the process with status 1 otherwise.  It starts the
    service, once, exactly when the first answer is negative, asks the bus
    at most four times and sleeps at most four times. *)
Theorem connect_with_fallback (is_debug : bool) (c : Client) :
  bus_available c = true →
  ((connect is_debug true c).1 = Connected
     ↔ ∃ k, k < 4 ∧ answers c (asked c + k) = true) ∧
  ((connect is_debug true c).1 = SystemExit 1
     ↔ ∀ k, k < 4 → answers c (asked c + k) = false) ∧
  commands (connect is_debug true c).2
    = (if answers c (asked c) then commands c
       else commands c ++ [start_command is_debug]) ∧
  (asked (connect is_debug true c).2 ≤ asked c + 4)%nat ∧
  (slept (connect is_debug true c).2 ≤ slept c + 4)%nat.
Proof.
  intros Hbus. unfold connect. rewrite Hbus. cbn [bus_get negb].
  destruct (answers c (asked c)) eqn:Hfirst.
  { cbn. split; [|split; [|split; [done|split; lia]]].
    - split; [|done]. intros _. exists 0. rewrite Nat.add_0_r. split; [lia|done].
    - split; [done|]. intros Hall. specialize (Hall 0). rewrite Nat.add_0_r in Hall.
      rewrite Hfirst in Hall. by specialize (Hall ltac:(lia)). }
  set (c1 := time_sleep (os_system (start_command is_debug) _)).
  destruct (retry_spec 3 c1) as (Hretry & Hcommands & _).
  assert (asked c1 = S (asked c)) as Hasked1 by done.
  assert (slept c1 = S (slept c)) as Hslept1 by done.
  assert (answers c1 = answers c) as Hanswers1 by done.
  rewrite Hanswers1, Hasked1, Hslept1 in Hretry. rewrite Hcommands.
  destruct (retry 3 c1).1 as [| |status|] eqn:Hresult; [|done| |done].
  - destruct Hretry as (k & Hk & Htrue & _ & Hasked & Hslept).
    split; [|split; [|split; [done|split; lia]]].
    + split; [|done]. intros _. exists (S k). split; [lia|].
      rewrite <- Htrue. f_equal. lia.
    + split; [done|]. intros Hall. specialize (Hall (S k) ltac:(lia)).
      replace (asked c + S k) with (S (asked c) + k) in Hall by lia. congruence.
  - destruct Hretry as (-> & Hfalse & Hasked & Hslept).
    split; [|split; [|split; [done|split; lia]]].
    + split; [done|]. intros (k & Hk & Htrue). destruct k as [|k].
      * rewrite Nat.add_0_r in Htrue. congruence.
      * specialize (Hfalse k ltac:(lia)).
        replace (asked c + S k) with (S (asked c) + k) in Htrue by lia. congruence.
    + split; [|done]. intros _ [|k] Hk; [by rewrite Nat.add_0_r|].
      replace (asked c + S k) with (S (asked c) + k) by lia. apply Hfalse. lia.
Qed.

(** X23: when [SystemBus()] itself fails, [connect] without the fallback
    gives [None] and does nothing; with the fallback it starts the service
    and sleeps once, and then fails on the unbound [bus] instead of trying
    the bus or ending the process: the bus is never asked. *)
Theorem connect_without_bus (is_debug fallback : bool) (c : Client) :
  bus_available c = false →
  asked (connect is_debug fallback c).2 = asked c ∧
  (fallback = false → connect is_debug fallback c = (NotConnected, c)) ∧
  (fallback = true →
     (connect is_debug fallback c).1 = UnboundLocalError ∧
     commands (connect is_debug fallback c).2
       = commands c ++ [start_command is_debug] ∧
     slept (connect is_debug fallback c).2 = S (slept c)).
Proof.
  intros Hbus. unfold connect. rewrite Hbus.
  destruct fallback; cbn; split; try done; split; try done.
Qed.

(** * Concrete states *)

(** The invariant that the registry holds no stopped injector. *)
Definition no_stopped_injector `{Formats} (w : World) : Prop :=
  ∀ device injector,
    injectors w !! device = Some injector → inj_state injector ≠ STOPPED.

(** Formats for the examples: a mapping is the text of its preset file, and
    every [config.json] assigns the preset [preset7] to [device 1]. *)
Definition example_formats : Formats := {|
  Mapping := string;
  parse_preset := λ text, text;
  parse_config := λ _, {[ "device 1" := VStr "preset7" ]};
  dump_config := λ _, "{}";
  xmodmap_to_dict := λ _, ∅
|}.

#[local] Existing Instance example_formats.

Definition fixtures : list (string * list string) :=
  [ ("device 1", ["/dev/input/event11"; "/dev/input/event10"; "/dev/input/event13"]);
    ("device 2", ["/dev/input/event20"]);
    ("gamepad", ["/dev/input/event30"]) ].

(** The state right after [Daemon()], one thousand seconds into the epoch. *)
Definition created : World := {|
  injectors := ∅;
  config_dir := None;
  autoload_history := ∅;
  refreshed_devices_at := 0;
  devices := fixtures;
  hardware := fixtures;
  config := {| cfg_path := "/etc/key-mapper/config.json"; cfg_autoload := ∅ |};
  system_mapping := ∅;
  filesystem :=
    {[ "/home/user/.config/key-mapper/config.json" := "{}";
       "/home/user/.config/key-mapper/presets/device 1/preset7.json" := "{}";
       "/home/user/.config/key-mapper/presets/device 1/preset8.json" := "{}" ]};
  now := 1000;
  injector_oserror := false;
  trace := []
|}.

Definition running_injector : Injector :=
  {| inj_device := "device 1"; inj_mapping := "{}"; inj_state := RUNNING |}.

(** A configured daemon that injects for [device 1]. *)
Definition running : World := {|
  injectors := {[ "device 1" := running_injector ]};
  config_dir := Some "/home/user/.config/key-mapper";
  autoload_history := {[ "device 1" := (990%Q, "preset7") ]};
  refreshed_devices_at := 995;
  devices := fixtures;
  hardware := fixtures;
  config := {| cfg_path := "/home/user/.config/key-mapper/config.json";
               cfg_autoload := {[ "device 1" := VStr "preset7" ]} |};
  system_mapping := ∅;
  filesystem := filesystem created;
  now := 1000;
  injector_oserror := false;
  trace := []
|}.

(** The environment moves on: the same state at another time. *)
Definition at_time (t : Q) (w : World) : World := {|
  injectors := injectors w; config_dir := config_dir w;
  autoload_history := autoload_history w;
  refreshed_devices_at := refreshed_devices_at w; devices := devices w;
  hardware := hardware w; config := config w;
  system_mapping := system_mapping w; filesystem := filesystem w;
  now := t; injector_oserror := injector_oserror w; trace := trace w
|}.

(** A configured daemon without injectors and without history. *)
Definition configured : World :=
  exec (set_config_dir "/home/user/.config/key-mapper") created.

(** C1 fails as stated: the injector of [device 1] is registered and runs,
    and no registered injector is stopped; after [stop_injecting], and
    after [stop_all], the registry holds a stopped injector. *)
Lemma stop_injecting_keeps_stopped_injector :
  is_Some (injectors running !! "device 1")
  ∧ no_stopped_injector running
  ∧ ¬ no_stopped_injector (exec (stop_injecting "device 1") running)
  ∧ ¬ no_stopped_injector (exec stop_all running).
Proof.
  split; [exists running_injector; vm_compute; reflexivity|].
  split.
  { intros device injector Hreg. unfold running in Hreg.
    cbn [injectors] in Hreg.
    apply lookup_singleton_Some in Hreg as [_ <-]. cbn. discriminate. }
  split; intros Hclaim.
  - apply (Hclaim "device 1" (stopped running_injector)).
    + vm_compute. reflexivity.
    + reflexivity.
  - apply (Hclaim "device 1" (stopped running_injector)).
    + vm_compute. reflexivity.
    + reflexivity.
Qed.

Lemma stopped_injectors_stay_registered_witness :
  injectors running !! "device 1" = Some running_injector
  ∧ injectors (exec (stop_injecting "device 1") running) !! "device 1"
      = Some (stopped running_injector)
  ∧ outcome (get_state "device 1") (exec (stop_injecting "device 1") running)
      = Return STOPPED
  ∧ outcome (start_injecting "/dev/input/event11" "preset8") configured
      = Return true
  ∧ ∃ name injector,
      resolved "/dev/input/event11"
        (entered "/dev/input/event11" "preset8" configured) = Some name
      ∧ injectors (exec (start_injecting "/dev/input/event11" "preset8") configured)
          !! name = Some injector
      ∧ inj_state injector = STARTING.
Proof.
  assert (injectors running !! "device 1" = Some running_injector) as Hreg
    by (vm_compute; reflexivity).
  assert (outcome (start_injecting "/dev/input/event11" "preset8") configured
          = Return true) as Hstart by (vm_compute; reflexivity).
  split; [exact Hreg|].
  split; [exact (proj1 (proj1 (stopped_injectors_stay_registered running)
                          "device 1" running_injector Hreg))|].
  split; [exact (proj2 (proj1 (stopped_injectors_stay_registered running)
                          "device 1" running_injector Hreg))|].
  split; [exact Hstart|].
  exact (proj2 (proj2 (stopped_injectors_stay_registered configured))
           "/dev/input/event11" "preset8" Hstart).
Defined.

Lemma may_autoload_spec_witness :
  autoload_history created !! "device 1" = None
  ∧ outcome (may_autoload "device 1" "preset7") created = Return true
  ∧ outcome (may_autoload "device 1" "preset7")
      (at_time 1015 (exec (remember "device 1" "preset7") created))
      = Return false
  ∧ outcome (may_autoload "device 1" "preset7")
      (at_time 1016 (exec (remember "device 1" "preset7") created))
      = Return true
  ∧ outcome (may_autoload "device 1" "preset8")
      (at_time 1001 (exec (remember "device 1" "preset7") created))
      = Return true.
Proof.
  pose proof (may_autoload_spec "device 1" "preset7" created)
    as (_ & _ & _ & Hfresh & Hremembered).
  assert (autoload_history created !! "device 1" = None) as Hnone
    by (vm_compute; reflexivity).
  split; [exact Hnone|]. split; [exact (Hfresh Hnone "preset7")|].
  split.
  { destruct (Hremembered
                (at_time 1015 (exec (remember "device 1" "preset7") created))
                eq_refl) as (Hwithin & _ & _).
    apply Hwithin. vm_compute. discriminate. }
  split.
  { destruct (Hremembered
                (at_time 1016 (exec (remember "device 1" "preset7") created))
                eq_refl) as (_ & Hlater & _).
    apply Hlater. vm_compute. reflexivity. }
  destruct (Hremembered
              (at_time 1001 (exec (remember "device 1" "preset7") created))
              eq_refl) as (_ & _ & Hother).
  apply Hother. discriminate.
Defined.

Lemma autoload_debounce_witness :
  autoload_ready "/dev/input/event11" "device 1" "preset7" configured
  ∧ outcome (may_autoload "device 1" "preset7") configured = Return true
  ∧ start_calls (trace configured) = 0
  ∧ start_calls (trace (exec (_autoload "/dev/input/event11") configured)) = 1
  ∧ start_calls
      (trace (exec (_autoload "/dev/input/event11")
                (at_time 1001 (exec (_autoload "/dev/input/event11") configured))))
      = 1
  ∧ start_calls
      (trace (exec (_autoload "/dev/input/event11")
                (at_time 1016 (exec (_autoload "/dev/input/event11") configured))))
      = 2.
Proof.
  assert (autoload_ready "/dev/input/event11" "device 1" "preset7" configured)
    as Hready1 by (unfold autoload_ready; split; [|split]; vm_compute; reflexivity).
  assert (outcome (may_autoload "device 1" "preset7") configured = Return true)
    as Happroved by (vm_compute; reflexivity).
  assert (∀ t, autoload_ready "/dev/input/event11" "device 1" "preset7"
                 (at_time t (exec (_autoload "/dev/input/event11") configured)))
    as Hready2.
  { intros t. unfold autoload_ready. split; [|split].
    - unfold exec at 1. rewrite refresh_devices_run.
      destruct (Qltb _ _); vm_compute; reflexivity.
    - unfold exec at 1. rewrite refresh_devices_run.
      destruct (Qltb _ _); vm_compute; reflexivity.
    - vm_compute; reflexivity. }
  split; [exact Hready1|]. split; [exact Happroved|]. split; [reflexivity|].
  pose proof (autoload_debounce "/dev/input/event11" "device 1" "preset7"
                configured
                (at_time 1001 (exec (_autoload "/dev/input/event11") configured))
                Hready1 Happroved eq_refl eq_refl (Hready2 _))
    as (_ & _ & _ & Hfirst & _ & Hwithin & _).
  pose proof (autoload_debounce "/dev/input/event11" "device 1" "preset7"
                configured
                (at_time 1016 (exec (_autoload "/dev/input/event11") configured))
                Hready1 Happroved eq_refl eq_refl (Hready2 _))
    as (_ & _ & _ & _ & _ & _ & Hlater).
  split; [exact Hfirst|]. split.
  - apply Hwithin. vm_compute. discriminate.
  - apply Hlater. vm_compute. reflexivity.
Defined.

Lemma start_injecting_missing_preset_witness :
  config_dir running = Some "/home/user/.config/key-mapper"
  ∧ injectors running !! "device 1" = Some running_injector
  ∧ filesystem running
      !! "/home/user/.config/key-mapper/presets/device 1/qux.json" = None
  ∧ outcome (start_injecting "/dev/input/event11" "qux") running = Return false
  ∧ injectors (exec (start_injecting "/dev/input/event11" "qux") running)
      = injectors running
  ∧ injectors (exec (start_injecting "/dev/input/event11" "qux") running)
      !! "device 1" = Some running_injector.
Proof.
  assert (config_dir running = Some "/home/user/.config/key-mapper") as Hdir
    by reflexivity.
  assert (resolved "/dev/input/event11"
            (entered "/dev/input/event11" "qux" running) = Some "device 1")
    as Hname by (vm_compute; reflexivity).
  assert (injectors running !! "device 1" = Some running_injector) as Hreg
    by (vm_compute; reflexivity).
  assert (filesystem running
            !! os_path_join "/home/user/.config/key-mapper"
                 ["presets"; "device 1"; "qux" +:+ ".json"] = None) as Hfile
    by (vm_compute; reflexivity).
  destruct (start_injecting_missing_preset
              "/dev/input/event11" "qux" "/home/user/.config/key-mapper"
              "device 1" running_injector running Hdir Hname Hreg Hfile)
    as (Hfalse & Hsame & Hkept & _).
  split; [exact Hdir|]. split; [exact Hreg|]. split; [exact Hfile|].
  split; [exact Hfalse|]. split; [exact Hsame|exact Hkept].
Defined.

Lemma start_injecting_without_config_dir_witness :
  config_dir created = None
  ∧ outcome (start_injecting "device 1" "preset8") created = Return false
  ∧ injectors (exec (start_injecting "device 1" "preset8") created)
      = injectors created.
Proof.
  split; [reflexivity|].
  destruct (start_injecting_without_config_dir "device 1" "preset8" created eq_refl)
    as (Hfalse & Hsame & _).
  split; [exact Hfalse|exact Hsame].
Defined.

Lemma set_config_dir_spec_witness :
  filesystem running !! os_path_join "/tmp/empty" ["config.json"] = None
  ∧ set_config_dir "/tmp/empty" running = (Return tt, running)
  ∧ filesystem created
      !! os_path_join "/home/user/.config/key-mapper" ["config.json"] = Some "{}"
  ∧ config_dir (exec (set_config_dir "/home/user/.config/key-mapper") created)
      = Some "/home/user/.config/key-mapper"
  ∧ config (exec (set_config_dir "/home/user/.config/key-mapper") created)
      = {| cfg_path := "/home/user/.config/key-mapper/config.json";
           cfg_autoload := {[ "device 1" := VStr "preset7" ]} |}.
Proof.
  assert (filesystem running !! os_path_join "/tmp/empty" ["config.json"] = None)
    as Habsent by (vm_compute; reflexivity).
  assert (filesystem created
            !! os_path_join "/home/user/.config/key-mapper" ["config.json"]
          = Some "{}") as Hpresent by (vm_compute; reflexivity).
  split; [exact Habsent|].
  split; [exact (proj1 (set_config_dir_spec "/tmp/empty" running) Habsent)|].
  split; [exact Hpresent|].
  destruct (proj2 (set_config_dir_spec "/home/user/.config/key-mapper" created)
              "{}" Hpresent) as (_ & Hdir & Hconfig & _).
  split; [exact Hdir|exact Hconfig].
Defined.

Lemma stop_injecting_spec_witness :
  injectors running !! "device 2" = None
  ∧ stop_injecting "device 2" running = (Return tt, running)
  ∧ injectors running !! "device 1" = Some running_injector
  ∧ injectors (exec (stop_injecting "device 1") running) !! "device 1"
      = Some (stopped running_injector)
  ∧ autoload_history (exec (stop_injecting "device 1") running) !! "device 1"
      = None.
Proof.
  assert (injectors running !! "device 2" = None) as Hnone
    by (vm_compute; reflexivity).
  assert (injectors running !! "device 1" = Some running_injector) as Hreg
    by (vm_compute; reflexivity).
  split; [exact Hnone|].
  split; [exact (proj1 (stop_injecting_spec "device 2" running) Hnone)|].
  split; [exact Hreg|].
  destruct (proj2 (stop_injecting_spec "device 1" running) running_injector Hreg)
    as (_ & _ & Hstopped & _ & Hforgotten).
  split; [exact Hstopped|exact Hforgotten].
Defined.

Lemma refresh_devices_spec_witness :
  (10 < now created - refreshed_devices_at created)%Q
  ∧ exec (refresh_devices None) created = refreshed created
  ∧ (now running - refreshed_devices_at running <= 10)%Q
  ∧ exec (refresh_devices (Some "/dev/input/event9876")) running
      = refreshed running
  ∧ exec (refresh_devices (Some "device 1")) running ≠ refreshed running.
Proof.
  assert (10 < now created - refreshed_devices_at created)%Q as Hold
    by (vm_compute; reflexivity).
  assert (now running - refreshed_devices_at running <= 10)%Q as Hrecent
    by (vm_compute; discriminate).
  split; [exact Hold|].
  destruct (refresh_devices_spec None created) as (_ & _ & _ & _ & Hforced & _).
  split; [exact (Hforced Hold)|]. split; [exact Hrecent|].
  destruct (refresh_devices_spec (Some "/dev/input/event9876") running)
    as (_ & _ & _ & _ & _ & Hunknown).
  destruct (refresh_devices_spec (Some "device 1") running)
    as (_ & _ & _ & _ & _ & Hknown).
  split.
  - apply (Hunknown Hrecent). exists "/dev/input/event9876". split; [reflexivity|].
    intros (group & Hgroup & Hpath). unfold running, fixtures in Hgroup.
    cbn [devices] in Hgroup.
    repeat (apply elem_of_cons in Hgroup as [-> | Hgroup];
            [vm_compute in Hpath;
             repeat (apply elem_of_cons in Hpath as [Hpath | Hpath];
                     [discriminate|]);
             by apply elem_of_nil in Hpath|]).
    by apply elem_of_nil in Hgroup.
  - intros Hrefreshed. apply (Hknown Hrecent) in Hrefreshed
      as (name & [= <-] & Hnot).
    apply Hnot. unfold located. cbn.
    apply list_elem_of_here.
Defined.

Lemma path_to_device_name_idempotent_witness :
  is_input_path "asdf" = false
  ∧ outcome (path_to_device_name "asdf") created = Return (Some "asdf")
  ∧ outcome (path_to_device_name "/dev/input/event13") created
      = Return (Some "device 1")
  ∧ is_input_path "device 1" = false
  ∧ outcome (path_to_device_name "device 1") created
      = outcome (path_to_device_name "/dev/input/event13") created.
Proof.
  assert (outcome (path_to_device_name "/dev/input/event13") created
          = Return (Some "device 1")) as Hname by (vm_compute; reflexivity).
  split; [reflexivity|].
  split; [exact (proj1 (proj2 (path_to_device_name_idempotent "asdf" created))
                   eq_refl)|].
  split; [exact Hname|]. split; [reflexivity|].
  exact (proj2 (proj2 (path_to_device_name_idempotent "/dev/input/event13" created))
           "device 1" Hname eq_refl).
Defined.

Lemma stop_all_forgets_witness :
  is_Some (injectors running !! "device 1")
  ∧ autoload_history running !! "device 1" = Some (990%Q, "preset7")
  ∧ outcome stop_all running = Return tt
  ∧ autoload_history (exec stop_all running) !! "device 1" = None
  ∧ outcome (may_autoload "device 1" "preset7") (exec stop_all running)
      = Return true.
Proof.
  assert (is_Some (injectors running !! "device 1")) as Hreg
    by (exists running_injector; vm_compute; reflexivity).
  destruct (stop_all_forgets "device 1" running Hreg)
    as (Hreturns & Hgone & Hmay).
  split; [exact Hreg|]. split; [vm_compute; reflexivity|].
  split; [exact Hreturns|]. split; [exact Hgone|].
  exact (Hmay (exec stop_all running) "preset7" eq_refl).
Defined.

(** * The scenarios of [test_daemon.py] on the model *)

(** [test_path_to_device_name] *)
Example path_to_device_name_fixtures :
  outcome (path_to_device_name "/dev/input/event13") created = Return (Some "device 1")
  ∧ outcome (path_to_device_name "/dev/input/event30") created = Return (Some "gamepad")
  ∧ outcome (path_to_device_name "/dev/input/event1234") created = Return None
  ∧ outcome (path_to_device_name "asdf") created = Return (Some "asdf").
Proof. vm_compute. repeat split. Qed.

(** A group of the registry whose name has itself the shape of a raw path
    is not a logical name in the sense of C9: resolving it again scans the
    paths of the registry. *)
Example path_shaped_group_name :
  let odd := set_devices [("/dev/input/by-name", ["/dev/input/event1"])] created in
  outcome (path_to_device_name "/dev/input/event1") odd
    = Return (Some "/dev/input/by-name")
  ∧ outcome (path_to_device_name "/dev/input/by-name") odd = Return None.
Proof. vm_compute. repeat split. Qed.

(** [test_start_stop]: a start before [set_config_dir] registers nothing;
    a start by path registers under the name of the device; a start of a
    preset that does not exist keeps the injector; a stop leaves the stopped
    injector in the registry and the history empty. *)
Example start_stop :
  let unconfigured := exec (start_injecting "device 1" "preset8") created in
  let started := exec (start_injecting "/dev/input/event11" "preset8") configured in
  let again := exec (start_injecting "device 1" "qux") started in
  let halted := exec (stop_injecting "device 1") again in
  injectors unconfigured !! "device 1" = None
  ∧ autoload_history unconfigured !! "device 1" = None
  ∧ outcome (get_state "device 1") started = Return STARTING
  ∧ outcome (get_state "device 2") started = Return UNKNOWN
  ∧ injectors again !! "device 1" = injectors started !! "device 1"
  ∧ outcome (get_state "device 1") halted = Return STOPPED
  ∧ autoload_history halted !! "device 1" = None.
Proof. vm_compute. repeat split. Qed.

(** [test_autoload]: the duplicate [_autoload] keeps the injector, and an
    explicit start clears the history. *)
Example autoload_twice :
  let once := exec (_autoload "/dev/input/event11") configured in
  let twice := exec (_autoload "/dev/input/event11") once in
  let explicit := exec (start_injecting "device 1" "preset7") twice in
  autoload_history once !! "device 1" = Some (1000%Q, "preset7")
  ∧ outcome (may_autoload "device 1" "preset7") once = Return false
  ∧ injectors twice !! "device 1" = injectors once !! "device 1"
  ∧ start_calls (trace twice) = 1
  ∧ outcome (may_autoload "device 1" "preset7") explicit = Return true.
Proof. vm_compute. repeat split. Qed.


(** * The remaining behaviour on concrete states *)

(** The device nodes of the examples: [event11] belongs to [device 1], and
    [event40] is a device that the daemon made itself. *)
Definition example_nodes (path : string) : option string :=
  if bool_decide (path = "/dev/input/event11") then Some "device 1"
  else if bool_decide (path = "/dev/input/event40") then Some "key-mapper device 1"
  else None.

(** The running daemon on a system that refuses new injectors. *)
Definition refusing : World := {|
  injectors := injectors running; config_dir := config_dir running;
  autoload_history := autoload_history running;
  refreshed_devices_at := refreshed_devices_at running;
  devices := devices running; hardware := hardware running;
  config := config running; system_mapping := system_mapping running;
  filesystem := filesystem running; now := now running;
  injector_oserror := true; trace := trace running
|}.


Lemma startable_configured :
  startable "/dev/input/event11" "preset8" "/home/user/.config/key-mapper"
    "device 1" "{}" configured.
Proof. unfold startable. split; [|split; [|split]]; vm_compute; reflexivity. Qed.

Lemma startable_running :
  startable "device 1" "preset8" "/home/user/.config/key-mapper"
    "device 1" "{}" running.
Proof. unfold startable. split; [|split; [|split]]; vm_compute; reflexivity. Qed.

Lemma startable_refusing :
  startable "device 1" "preset8" "/home/user/.config/key-mapper"
    "device 1" "{}" refusing.
Proof. unfold startable. split; [|split; [|split]]; vm_compute; reflexivity. Qed.

Lemma not_startable_created device preset dir name text :
  ¬ startable device preset dir name text created.
Proof. intros (Hdir & _). discriminate. Qed.


Lemma start_injecting_registers_witness :
  injector_oserror configured = false
  ∧ injectors (exec (start_injecting "/dev/input/event11" "preset8") configured)
      = <[ "device 1" := new_injector "device 1" "{}" ]> (injectors configured)
  ∧ outcome (get_state "device 1")
      (exec (start_injecting "/dev/input/event11" "preset8") configured)
      = Return STARTING.
Proof.
  destruct (start_injecting_registers _ _ _ _ _ _ startable_configured eq_refl)
    as (_ & Hinj & _ & Hstate).
  split; [reflexivity|]. split; [exact Hinj|exact Hstate].
Defined.

Lemma start_injecting_forgets_witness :
  is_Some (injectors running !! "device 1")
  ∧ autoload_history running !! "device 1" = Some (990%Q, "preset7")
  ∧ autoload_history (exec (start_injecting "device 1" "preset8") running)
      = delete "device 1" (autoload_history running)
  ∧ outcome (may_autoload "device 1" "preset7")
      (exec (start_injecting "device 1" "preset8") running) = Return true.
Proof.
  assert (is_Some (injectors running !! "device 1")) as Hreg
    by (exists running_injector; vm_compute; reflexivity).
  destruct (proj1 (start_injecting_forgets _ _ _ _ _ _ startable_running) Hreg)
    as (Hhistory & _ & Hmay).
  split; [exact Hreg|]. split; [vm_compute; reflexivity|].
  split; [exact Hhistory|exact (Hmay "preset7")].
Defined.

Lemma start_injecting_refused_witness :
  injector_oserror refusing = true
  ∧ injectors refusing !! "device 1" = Some running_injector
  ∧ outcome (start_injecting "device 1" "preset8") refusing = Return false
  ∧ injectors (exec (start_injecting "device 1" "preset8") refusing) !! "device 1"
      = Some (stopped running_injector).
Proof.
  assert (injectors refusing !! "device 1" = Some running_injector) as Hreg
    by (vm_compute; reflexivity).
  destruct (start_injecting_refused _ _ _ _ _ _ startable_refusing eq_refl)
    as (Hfalse & _ & Hstopped & _).
  split; [reflexivity|]. split; [exact Hreg|].
  split; [exact Hfalse|exact (Hstopped _ Hreg)].
Defined.

Lemma start_injecting_gives_up_witness :
  outcome (start_injecting "device 1" "preset8") created = Return false
  ∧ injectors (exec (start_injecting "device 1" "preset8") created)
      = injectors created
  ∧ autoload_history (exec (start_injecting "device 1" "preset8") created)
      = autoload_history created.
Proof.
  destruct (start_injecting_gives_up "device 1" "preset8" created
              (not_startable_created "device 1" "preset8"))
    as (Hfalse & Hinj & Hhistory & _).
  split; [exact Hfalse|]. split; [exact Hinj|exact Hhistory].
Defined.

Lemma start_injecting_by_path_witness :
  resolved "/dev/input/event11"
    (entered "/dev/input/event11" "preset8" configured) = Some "device 1"
  ∧ outcome (start_injecting "/dev/input/event11" "preset8") configured
      = outcome (start_injecting "device 1" "preset8") configured
  ∧ injectors (exec (start_injecting "/dev/input/event11" "preset8") configured)
      = injectors (exec (start_injecting "device 1" "preset8") configured).
Proof.
  assert (resolved "/dev/input/event11"
            (entered "/dev/input/event11" "preset8" configured) = Some "device 1")
    as Hresolved by (vm_compute; reflexivity).
  destruct (start_injecting_by_path "/dev/input/event11" "device 1" "preset8"
              configured eq_refl eq_refl Hresolved) as (Hout & Hinj & _).
  split; [exact Hresolved|]. split; [exact Hout|exact Hinj].
Defined.

Lemma identifiers_are_not_resolved_witness :
  "device 1" ≠ "/dev/input/event11"
  ∧ injectors configured !! "/dev/input/event11" = None
  ∧ outcome (get_state "/dev/input/event11")
      (exec (start_injecting "/dev/input/event11" "preset8") configured)
      = Return UNKNOWN
  ∧ outcome (get_state "device 1")
      (exec (start_injecting "/dev/input/event11" "preset8") configured)
      = Return STARTING.
Proof.
  assert ("device 1" ≠ "/dev/input/event11") as Hne by discriminate.
  assert (injectors configured !! "/dev/input/event11" = None) as Hnone
    by (vm_compute; reflexivity).
  destruct (identifiers_are_not_resolved _ _ _ _ _ _
              startable_configured eq_refl Hne Hnone)
    as (Hunknown & _ & Hstarting & _).
  split; [exact Hne|]. split; [exact Hnone|].
  split; [exact Hunknown|exact Hstarting].
Defined.

Lemma daemon_invariants_witness :
  rtc (step example_nodes) running
    (exec (perform example_nodes Call_stop_all) running)
  ∧ is_Some (injectors running !! "device 1")
  ∧ is_Some (injectors (exec (perform example_nodes Call_stop_all) running)
               !! "device 1")
  ∧ is_Some (config_dir (exec (perform example_nodes Call_stop_all) running)).
Proof.
  assert (rtc (step example_nodes) running
            (exec (perform example_nodes Call_stop_all) running)) as Hsteps.
  { apply rtc_once. right. by exists Call_stop_all. }
  assert (is_Some (injectors running !! "device 1")) as Hreg
    by (exists running_injector; vm_compute; reflexivity).
  destruct (daemon_invariants example_nodes _ _ Hsteps) as (Hstay & _ & Hdir).
  split; [exact Hsteps|]. split; [exact Hreg|].
  split; [exact (Hstay _ Hreg)|].
  apply Hdir. eexists. reflexivity.
Defined.

Lemma autoload_starts_iff_witness :
  autoload_ready "/dev/input/event11" "device 1" "preset7" configured
  ∧ approved "device 1" "preset7" configured
  ∧ start_calls (trace (exec (_autoload "/dev/input/event11") configured))
      = S (start_calls (trace configured))
  ∧ autoload_history (exec (_autoload "/dev/input/event11") configured)
      !! "device 1" = Some (now configured, "preset7").
Proof.
  assert (autoload_ready "/dev/input/event11" "device 1" "preset7" configured)
    as Hready by (unfold autoload_ready; split; [|split]; vm_compute; reflexivity).
  assert (approved "device 1" "preset7" configured) as Happroved
    by (left; vm_compute; reflexivity).
  destruct (autoload_starts_iff "/dev/input/event11" configured)
    as (Hiff & _ & Hentry).
  split; [exact Hready|]. split; [exact Happroved|]. split.
  - apply Hiff. eexists _, _. split; [exact Hready|exact Happroved].
  - exact (Hentry _ _ Hready Happroved).
Defined.



Lemma autoload_single_guards_witness :
  example_nodes "/dev/input/event40" = Some ("" +:+ "key-mapper" +:+ " device 1")
  ∧ autoload_single example_nodes "/dev/input/event40" running
      = (Return tt, running)
  ∧ example_nodes "/dev/input/event9" = None
  ∧ autoload_single example_nodes "/dev/input/event9" running
      = (Return tt, running)
  ∧ autoload_single example_nodes "device 1" created = (Return tt, created)
  ∧ autoload_single example_nodes "device 1" running = _autoload "device 1" running.
Proof.
  destruct (autoload_single_guards example_nodes "/dev/input/event40" running)
    as (_ & Hown & _).
  destruct (autoload_single_guards example_nodes "/dev/input/event9" running)
    as (Hgone & _).
  destruct (autoload_single_guards example_nodes "device 1" created)
    as (_ & _ & Hunset & _).
  destruct (autoload_single_guards example_nodes "device 1" running)
    as (_ & _ & _ & Hname).
  split; [reflexivity|]. split; [exact (Hown "" " device 1" eq_refl eq_refl)|].
  split; [reflexivity|]. split; [exact (Hgone eq_refl eq_refl)|].
  split; [exact (Hunset eq_refl)|].
  apply Hname; [eexists; reflexivity|left; reflexivity].
Defined.

Lemma refresh_devices_again_witness :
  ¬ located "/dev/input/event9876" (hardware created)
  ∧ exec (refresh_devices (Some "/dev/input/event9876")) (refreshed created)
      = refreshed (refreshed created)
  ∧ exec (refresh_devices None) (refreshed created) = refreshed created.
Proof.
  assert (¬ located "/dev/input/event9876" (hardware created)) as Hnot.
  { intros Hloc%existsb_located; [|reflexivity].
    vm_compute in Hloc. discriminate. }
  destruct (refresh_devices_again (Some "/dev/input/event9876") created)
    as (Hunknown & _).
  destruct (refresh_devices_again None created) as (_ & Hnone).
  split; [exact Hnot|]. split.
  - apply Hunknown. eexists. split; [reflexivity|exact Hnot].
  - apply Hnone. intros (name & Heq & _). discriminate.
Defined.

Lemma stop_all_effect_witness :
  is_Some (injectors running !! "device 1")
  ∧ injectors running !! "device 2" = None
  ∧ autoload_history (exec stop_all running) !! "device 1" = None
  ∧ autoload_history (exec stop_all running) !! "device 2"
      = autoload_history running !! "device 2".
Proof.
  assert (is_Some (injectors running !! "device 1")) as Hreg
    by (exists running_injector; vm_compute; reflexivity).
  assert (injectors running !! "device 2" = None) as Hnone
    by (vm_compute; reflexivity).
  destruct (stop_all_effect running) as (_ & Hforgotten & Hkept & _).
  split; [exact Hreg|]. split; [exact Hnone|].
  split; [exact (Hforgotten _ Hreg)|exact (Hkept _ Hnone)].
Defined.

Lemma stop_all_any_order_witness :
  (∀ device, device ∈ ["device 1"; "device 1"]
             ↔ is_Some (injectors running !! device))
  ∧ injectors (exec (for_each ["device 1"; "device 1"] stop_injecting) running)
      = injectors (exec stop_all running)
  ∧ autoload_history
      (exec (for_each ["device 1"; "device 1"] stop_injecting) running)
      = autoload_history (exec stop_all running).
Proof.
  assert (∀ device, device ∈ ["device 1"; "device 1"]
                    ↔ is_Some (injectors running !! device)) as Horder.
  { intros device. unfold running. cbn [injectors]. split.
    - intros Hin. assert (device = "device 1") as ->.
      { repeat (apply elem_of_cons in Hin as [Hin|Hin]; [exact Hin|]).
        by apply elem_of_nil in Hin. }
      exists running_injector. apply lookup_singleton_eq.
    - intros [injector [<- _]%lookup_singleton_Some]. apply list_elem_of_here. }
  destruct (stop_all_any_order _ running Horder) as (_ & Hinj & Hhistory).
  split; [exact Horder|]. split; [exact Hinj|exact Hhistory].
Defined.

Lemma history_per_device_witness :
  "device 1" ≠ "device 2"
  ∧ outcome (may_autoload "device 2" "preset7")
      (exec (remember "device 1" "preset7") created)
      = outcome (may_autoload "device 2" "preset7") created
  ∧ outcome (may_autoload "device 2" "preset7")
      (exec (stop_injecting "device 1") running)
      = outcome (may_autoload "device 2" "preset7") running.
Proof.
  assert ("device 1" ≠ "device 2") as Hne by discriminate.
  destruct (history_per_device "device 1" "device 2" "preset7" "preset7" created Hne)
    as (Hremember & _).
  destruct (history_per_device "device 1" "device 2" "preset7" "preset7" running Hne)
    as (_ & _ & Hstop).
  split; [exact Hne|]. split; [exact Hremember|exact Hstop].
Defined.

Lemma remember_forget_witness :
  autoload_history created !! "device 1" = None
  ∧ autoload_history
      (exec (forget "device 1") (exec (remember "device 1" "preset7") created))
      = autoload_history created
  ∧ autoload_history
      (exec (remember "device 1" "preset8")
         (at_time 1005 (exec (remember "device 1" "preset7") created)))
      = <[ "device 1" := (1005%Q, "preset8") ]> (autoload_history created).
Proof.
  assert (autoload_history created !! "device 1" = None) as Hnone
    by (vm_compute; reflexivity).
  destruct (remember_forget "device 1" "preset7" created)
    as (Hundo & Hover & _).
  split; [exact Hnone|]. split; [exact (Hundo Hnone)|].
  exact (Hover (at_time 1005 (exec (remember "device 1" "preset7") created))
           "preset8" eq_refl).
Defined.

Lemma preset_path_spec_witness :
  os_path_join "/home/user/.config/key-mapper"
    ["presets"; "device 1"; "preset7" +:+ ".json"]
    = "/home/user/.config/key-mapper/presets/device 1/preset7.json"
  ∧ os_path_join "/home/user/.config/key-mapper"
      ["presets"; "device 1"; "/etc/shadow" +:+ ".json"]
    = "/etc/shadow.json".
Proof.
  destruct (preset_path_spec "/home/user/.config/key-mapper" "device 1" "preset7")
    as (Hrelative & _).
  destruct (preset_path_spec "/home/user/.config/key-mapper" "device 1" "/etc/shadow")
    as (_ & Habsolute).
  split.
  - rewrite Hrelative; [reflexivity|discriminate|reflexivity|discriminate
                        |reflexivity|reflexivity|reflexivity].
  - exact (Habsolute eq_refl).
Defined.

(** A client that finds the service at its third call of the bus, and one
    that never finds it. *)
Definition patient_client : Client :=
  {| bus_available := true; answers := λ n, bool_decide (n = 2);
     asked := 0; commands := []; slept := 0 |}.

Definition lonely_client : Client :=
  {| bus_available := true; answers := λ _, false;
     asked := 0; commands := []; slept := 0 |}.

Lemma connect_without_fallback_witness :
  (connect false false lonely_client).1 = NotConnected
  ∧ commands (connect false false lonely_client).2 = [].
Proof.
  destruct (connect_without_fallback false lonely_client)
    as (_ & Hnone & Hcommands & _).
  split; [|exact Hcommands].
  apply Hnone. intros [_ Hanswer]. discriminate.
Defined.

Lemma connect_with_fallback_witness :
  bus_available patient_client = true
  ∧ (connect false true patient_client).1 = Connected
  ∧ commands (connect false true patient_client).2
      = ["pkexec key-mapper-control --command start-daemon "]
  ∧ (connect true true lonely_client).1 = SystemExit 1
  ∧ commands (connect true true lonely_client).2
      = ["pkexec key-mapper-control --command start-daemon  -d"].
Proof.
  destruct (connect_with_fallback false patient_client eq_refl)
    as (Hfound & _ & Hcommands & _).
  destruct (connect_with_fallback true lonely_client eq_refl)
    as (_ & Hexit & Hcommands' & _).
  split; [reflexivity|]. split.
  { apply Hfound. exists 2. split; [lia|reflexivity]. }
  split; [exact Hcommands|]. split.
  { apply Hexit. intros k _. reflexivity. }
  exact Hcommands'.
Defined.

(** A client on a system without a system bus. *)
Definition busless_client : Client :=
  {| bus_available := false; answers := λ _, true;
     asked := 0; commands := []; slept := 0 |}.

Lemma connect_without_bus_witness :
  bus_available busless_client = false
  ∧ (connect false true busless_client).1 = UnboundLocalError
  ∧ connect false false busless_client = (NotConnected, busless_client).
Proof.
  split; [reflexivity|]. split.
  - exact (proj1 (proj2 (proj2 (connect_without_bus false true busless_client
                                   eq_refl)) eq_refl)).
  - exact (proj1 (proj2 (connect_without_bus false false busless_client eq_refl))
             eq_refl).
Defined.

(** The scenario of [test_connect]: without a service and without a bus
    answer the fallback starts the service once and then gives up. *)
Example connect_gives_up :
  connect false true lonely_client
    = (SystemExit 1,
       {| bus_available := true; answers := answers lonely_client; asked := 4;
          commands := ["pkexec key-mapper-control --command start-daemon "];
          slept := 4 |}).
Proof. reflexivity. Qed.
